(** * scripts/txt2img.py: the text-to-image driver script

    A shallow embedding of the script's own logic: prompt chunking, the
    safety substitution, watermarking, the resize and enhance helpers, the
    sampler selection, the prompt batching and the saving loop of [main].
    The diffusion model, the samplers, the safety classifier, PIL, OpenCV
    and the operating system are outside the script; they appear as the
    fields of a record of library operations, and as a small model of the
    file system that the script writes to. *)

From Stdlib Require Import ZArith QArith Lia Ascii DecimalString DecimalN.
From stdpp Require Import base list strings gmap.
From Equations Require Import Equations.
From Equations.Prop Require Import Logic.

Local Open Scope Z_scope.

(** ** Python values and exceptions *)

(** The exceptions the script can meet. All of them derive from Python's
    [Exception], which is what [except Exception] catches. *)
Inductive exn : Type :=
| ValueError
| AssertionError
| IndexError
| TypeError
| FileNotFoundError
| FileExistsError
| NotADirectoryError
| IsADirectoryError
| UnidentifiedImageError
| UnicodeDecodeError
| ZeroDivisionError
| RuntimeError
| cv2_error.

(** A computation that returns a value or raises. *)
Inductive result (A : Type) : Type :=
| Ok (a : A)
| Raise (e : exn).
Arguments Ok {A} a.
Arguments Raise {A} e.

Definition result_bind {A B} (r : result A) (k : A -> result B) : result B :=
  match r with
  | Ok a => k a
  | Raise e => Raise e
  end.

(** Python's [bool(n)] on an int. *)
Definition py_bool (n : Z) : bool := negb (n =? 0).

(** ** [chunk] *)

Section Chunk.
Context {A : Type}.

(** [tuple(islice(it, size))] on the iterator whose remaining items are
    [it]: the items taken, and the items the iterator is left with. *)
Definition islice (it : list A) (size : nat) : list A * list A :=
  (take size it, drop size it).

(** [iter(lambda: tuple(islice(it, size)), ())]: the lambda is called
    until it returns the sentinel [()]. *)
Equations? chunk_from (size : nat) (it : list A) : list (list A)
  by wf (length it) lt :=
  chunk_from size it with inspect (fst (islice it size)) := {
    | exist _ [] _ := [];
    | exist _ (x :: t) E := (x :: t) :: chunk_from size (snd (islice it size)) }.
Proof.
  simpl in *. rewrite length_drop.
  destruct size as [|n]; [now rewrite take_0 in E|].
  destruct it as [|y it]; [discriminate|]. simpl. lia.
Qed.

(** [list(chunk(it, size))]. [islice] refuses a negative stop with
    [ValueError] when it is built, which is on the first call of the
    lambda. Sizes are taken to fit a machine word, as [islice] needs. *)
Definition chunk (it : list A) (size : Z) : result (list (list A)) :=
  if size <? 0 then Raise ValueError
  else Ok (chunk_from (Z.to_nat size) it).

End Chunk.

(** ** Arrays, images and the file system *)

Inductive np_dtype : Type := float16 | float32 | float64 | uint8.

(** Python floats are only compared with a constant and handed on. *)
Definition py_float : Type := Q.

Section Data.
(** The element buffer of an array or image; the script never looks
    inside one. *)
Context {pixels : Type}.

(** A numpy array of one image: [shape] is (height, width, channels). A
    batch of images, an array with one more leading axis, is the list of
    its images; [x.shape[0]] is its length and [x[i] = y] a list update. *)
Record ndarray : Type := mk_ndarray
  { shape : list Z; dtype : np_dtype; buffer : pixels }.

(** A PIL image; [pil_size] is (width, height). *)
Record pil_image : Type := mk_pil
  { pil_size : Z * Z; pil_mode : string; raster : pixels }.

(** What [numpy_to_pil] accepts: one image ([ndim == 3]) or a batch. *)
Inductive np_images : Type :=
| OneImage (image : ndarray)
| ImageBatch (images : list ndarray).

(** The second component of what [check_safety] returns: the literal
    [False], or the classifier's list of flags. *)
Inductive nsfw_flags : Type :=
| PyFalse
| PyFlags (has_nsfw_concept : list bool).

(** Python truthiness of that value. *)
Definition py_truthy (v : nsfw_flags) : bool :=
  match v with
  | PyFalse => false
  | PyFlags l => negb (bool_decide (l = []))
  end.

(** [WatermarkEncoder] after [set_watermark(wm_type, content)]. *)
Record WatermarkEncoder : Type := mk_encoder
  { wm_type : string; wm_content : string }.

Inductive file : Type :=
| Picture (p : pil_image)
| Text (s : string).

(** Who wrote a file: [img.save] of PIL or [cv2.imwrite]. *)
Inductive writer : Type := PIL_save | cv2_write.

#[global] Instance writer_eq_dec : EqDecision writer.
Proof. solve_decision. Defined.

(** The file system, with POSIX paths: the files by path, the
    directories that exist, and the writes so far, latest first.
    The empty path is the working directory. *)
Record world : Type := mk_world
  { files : gmap string file;
    dirs : gset string;
    written : list (writer * string) }.

(** A step of the script: it reads and writes the file system and
    returns or raises. *)
Definition M (A : Type) : Type := world -> result (A * world).

Definition ret {A} (a : A) : M A := fun w => Ok (a, w).
Definition raise {A} (e : exn) : M A := fun _ => Raise e.
Definition bind {A B} (m : M A) (k : A -> M B) : M B :=
  fun w => match m w with
           | Ok (a, w') => k a w'
           | Raise e => Raise e
           end.
Definition lift {A} (r : result A) : M A :=
  fun w => match r with Ok a => Ok (a, w) | Raise e => Raise e end.

(** [try: body except Exception: handler], for a body that only reads. *)
Definition try_except {A} (body : M A) (handler : exn -> M A) : M A :=
  fun w => match body w with
           | Ok r => Ok r
           | Raise e => handler e w
           end.

(** [assert cond]. *)
Definition py_assert (cond : bool) : M unit :=
  if cond then ret tt else raise AssertionError.

(** [for x in l: s = body(x, s)]. *)
Fixpoint for_each {X S} (l : list X) (body : X -> S -> M S) (s : S) : M S :=
  match l with
  | [] => ret s
  | x :: l' => bind (body x s) (for_each l' body)
  end.

End Data.

Arguments ndarray : clear implicits.
Arguments pil_image : clear implicits.
Arguments np_images : clear implicits.
Arguments file : clear implicits.
Arguments world : clear implicits.
Arguments M : clear implicits.

Declare Scope script_scope.
Delimit Scope script_scope with script.
Notation "x <- m ;; k" := (bind m (fun x => k))
  (at level 100, m at next level, right associativity) : script_scope.
Notation "m ;;; k" := (bind m (fun _ => k))
  (at level 100, right associativity) : script_scope.
Local Open Scope script_scope.

(** ** Paths and names *)

Fixpoint ends_with_slash (s : string) : bool :=
  match s with
  | EmptyString => false
  | String c EmptyString => bool_decide (c = "/"%char)
  | String _ s' => ends_with_slash s'
  end.

(** [posixpath.join(a, b)]. *)
Definition os_path_join (a b : string) : string :=
  if String.prefix "/" b then b
  else if bool_decide (a = "") || ends_with_slash a then a +:+ b
  else a +:+ "/" +:+ b.

(** The text before the last slash of [s], when [s] has a slash. *)
Fixpoint before_last_slash (s : string) : option string :=
  match s with
  | EmptyString => None
  | String c s' =>
      match before_last_slash s' with
      | Some d => Some (String c d)
      | None => if bool_decide (c = "/"%char) then Some EmptyString else None
      end
  end.

(** The directory a path lies in; the empty string is the working
    directory. *)
Definition dirname (p : string) : string :=
  default "" (before_last_slash p).

(** A path and the directories above it, as [os.makedirs] creates them. *)
Fixpoint with_parents (p : string) : list string :=
  match p with
  | EmptyString => []
  | String c s' =>
      let rest := (String c) <$> with_parents s' in
      if bool_decide (s' <> "") && String.prefix "/" s' then String c "" :: rest
      else if bool_decide (s' = "") then [String c ""] else rest
  end.

(** The name [p] has inside directory [d], when it lies directly in it. *)
Fixpoint strip_prefix (d p : string) : option string :=
  match d, p with
  | EmptyString, _ => Some p
  | String a d', String b p' => if bool_decide (a = b) then strip_prefix d' p' else None
  | String _ _, EmptyString => None
  end.

Definition entry_name (d p : string) : option string :=
  match strip_prefix (d +:+ "/") p with
  | Some n => if bool_decide (n <> "") && bool_decide (before_last_slash n = None)
              then Some n else None
  | None => None
  end.

(** Left padding with zeros to [width] characters. *)
Definition zfill (width : nat) (s : string) : string :=
  String.string_of_list_ascii (replicate (width - String.length s) "0"%char) +:+ s.

(** The format spec [0w] of an f-string on an int: at least [width]
    characters, zeros after the sign. *)
Definition format_zero_padded (width : nat) (n : Z) : string :=
  let digits := NilEmpty.string_of_uint (N.to_uint (Z.abs_N n)) in
  if n <? 0 then "-" +:+ zfill (width - 1) digits else zfill width digits.

(** ** The libraries the script calls *)

Section Script.
Context {pixels model_t tensor : Type}.

Local Abbreviation ndarray := (ndarray pixels).
Local Abbreviation pil_image := (pil_image pixels).
Local Abbreviation world := (world pixels).
Local Abbreviation M := (M pixels).

(** The three samplers, each built from the model. *)
Inductive sampler : Type :=
| DPMSolverSampler (model : model_t)
| PLMSSampler (model : model_t)
| DDIMSampler (model : model_t).

(** What the script takes from numpy, PIL, OpenCV, imwatermark,
    diffusers, torch and ldm: functions of their arguments, some of which
    can raise. *)
Class Libraries : Type := {
  (** [Image.fromarray(a)] *)
  Image_fromarray : ndarray -> result pil_image;
  (** the pixels of [im.convert(mode)] and of [im.resize(size)] *)
  convert_raster : string -> pil_image -> pixels;
  resample_raster : pil_image -> Z * Z -> pixels;
  (** the elements of [(a / 255.0).astype(dtype)] *)
  unit_scale : pixels -> np_dtype -> pixels;
  (** [(images * 255).round().astype("uint8")] and
      [(255. * x).astype(np.uint8)] on one image *)
  round_uint8 : ndarray -> ndarray;
  trunc_uint8 : ndarray -> ndarray;
  (** the safety model *)
  safety_feature_extractor : list pil_image -> result tensor;
  safety_checker : list ndarray -> tensor -> result (list ndarray * list bool);
  (** [cv2.cvtColor(a, cv2.COLOR_RGB2BGR)], [wm_encoder.encode(a, method)]
      and [a[:, :, ::-1]] *)
  cvtColor_RGB2BGR : ndarray -> result ndarray;
  wm_encode : WatermarkEncoder -> ndarray -> string -> result ndarray;
  reverse_channels : ndarray -> result ndarray;
  (** the pixels [cv2.imread] decodes and [cv2.imwrite] encodes, and
      those of a Lanczos resize *)
  bgr_decode : pil_image -> pixels;
  bgr_encode : ndarray -> pixels;
  lanczos4 : ndarray -> Z * Z -> pixels;
  (** [cv2.detailEnhance(a, sigma_s=200, sigma_r=0.01)] and
      [cv2.edgePreservingFilter(a, flags=1, sigma_s=60, sigma_r=0.3)] *)
  detailEnhance : ndarray -> result ndarray;
  edgePreservingFilter : ndarray -> result ndarray;
  (** [str.splitlines] *)
  str_splitlines : string -> list string;
  (** the model and the samplers *)
  get_learned_conditioning : model_t -> list string -> result tensor;
  sampler_sample :
    sampler -> Z -> tensor -> Z -> list Z -> py_float -> option tensor ->
    py_float -> option tensor -> result tensor;
  decode_first_stage : model_t -> tensor -> result tensor;
  (** [torch.clamp((x + 1.0) / 2.0, min=0.0, max=1.0)], then
      [.cpu().permute(0, 2, 3, 1).numpy()] *)
  to_numpy_images : tensor -> list ndarray;
  torch_randn : list Z -> result tensor;
  (** [torch.stack], [rearrange], [make_grid(grid, nrow)] and the
      conversion to an array of the grid *)
  make_grid_array : list (list ndarray) -> Z -> result ndarray;
}.

Context {libs : Libraries}.

(** *** The file system *)

Definition parent_exists (w : world) (path : string) : bool :=
  bool_decide (dirname path = "") || bool_decide (dirname path ∈ dirs w).

Definition write_file (by_whom : writer) (path : string)
    (content : file pixels) (w : world) : world :=
  {| files := <[path := content]> (files w);
     dirs := dirs w;
     written := (by_whom, path) :: written w |}.

(** [os.makedirs(name, exist_ok=True)]. *)
Definition os_makedirs (name : string) : M unit := fun w =>
  if bool_decide (name = "") then Raise FileNotFoundError
  else if bool_decide (name ∈ dom (files w)) then Raise FileExistsError
  else if bool_decide (Exists (fun p => p ∈ dom (files w)) (with_parents name))
  then Raise NotADirectoryError
  else Ok (tt, {| files := files w;
                  dirs := list_to_set (with_parents name) ∪ dirs w;
                  written := written w |}).

(** [os.listdir(path)]: the names of the files and directories that lie
    directly in [path]. *)
Definition os_listdir (path : string) : M (list string) := fun w =>
  if bool_decide (path ∈ dirs w)
  then Ok (omap (entry_name path) (elements (dom (files w) ∪ dirs w)), w)
  else if bool_decide (path ∈ dom (files w)) then Raise NotADirectoryError
  else Raise FileNotFoundError.

(** [open(path, "r").read()]. *)
Definition read_text (path : string) : M string := fun w =>
  match files w !! path with
  | Some (Text s) => Ok (s, w)
  | Some (Picture _) => Raise UnicodeDecodeError
  | None =>
      if bool_decide (path ∈ dirs w) then Raise IsADirectoryError
      else Raise FileNotFoundError
  end.

(** *** PIL *)

Definition Image_open (path : string) : M pil_image := fun w =>
  match files w !! path with
  | Some (Picture p) => Ok (p, w)
  | Some (Text _) => Raise UnidentifiedImageError
  | None =>
      if bool_decide (path ∈ dirs w) then Raise IsADirectoryError
      else Raise FileNotFoundError
  end.

Definition pil_convert (mode : string) (im : pil_image) : pil_image :=
  {| pil_size := pil_size im; pil_mode := mode; raster := convert_raster mode im |}.

Definition pil_resize (im : pil_image) (size : Z * Z) : result pil_image :=
  if (0 <? size.1) && (0 <? size.2)
  then Ok {| pil_size := size; pil_mode := pil_mode im;
             raster := resample_raster im size |}
  else Raise ValueError.

(** [img.save(path)]. *)
Definition pil_save (img : pil_image) (path : string) : M unit := fun w =>
  if bool_decide (path ∈ dirs w) then Raise IsADirectoryError
  else if parent_exists w path then Ok (tt, write_file PIL_save path (Picture img) w)
  else Raise FileNotFoundError.

(** The number of bands of the modes the script meets. *)
Definition mode_bands (mode : string) : Z :=
  if bool_decide (mode = "RGB") then 3
  else if bool_decide (mode = "RGBA") then 4
  else 1.

(** [np.array(im)]. *)
Definition np_array (im : pil_image) : ndarray :=
  {| shape := if bool_decide (mode_bands (pil_mode im) = 1)
              then [(pil_size im).2; (pil_size im).1]
              else [(pil_size im).2; (pil_size im).1; mode_bands (pil_mode im)];
     dtype := uint8;
     buffer := raster im |}.

(** [(a / 255.0).astype(dt)]. *)
Definition div255_astype (a : ndarray) (dt : np_dtype) : ndarray :=
  {| shape := shape a; dtype := dt; buffer := unit_scale (buffer a) dt |}.

(** [t[i]] on a tuple. *)
Definition tuple_item (t : list Z) (i : nat) : result Z :=
  match t !! i with
  | Some v => Ok v
  | None => Raise IndexError
  end.

(** *** OpenCV *)

(** [cv2.imread(path)]: a BGR array, or [None] when the file cannot be
    read. *)
Definition cv2_imread (path : string) : M (option ndarray) := fun w =>
  match files w !! path with
  | Some (Picture p) =>
      Ok (Some {| shape := [(pil_size p).2; (pil_size p).1; 3];
                  dtype := uint8;
                  buffer := bgr_decode p |}, w)
  | _ => Ok (None, w)
  end.

(** An OpenCV function given [None] for its image raises. *)
Definition cv2_image (a : option ndarray) : result ndarray :=
  match a with
  | Some a => Ok a
  | None => Raise cv2_error
  end.

(** [cv2.resize(src, dsize=(width, height), interpolation=INTER_LANCZOS4)]. *)
Definition cv2_resize (src : option ndarray) (dsize : Z * Z) : result ndarray :=
  result_bind (cv2_image src) (fun a =>
    match shape a with
    | h :: w :: channels =>
        if (0 <? h) && (0 <? w) && (0 <? dsize.1) && (0 <? dsize.2)
        then Ok {| shape := dsize.2 :: dsize.1 :: channels;
                   dtype := dtype a;
                   buffer := lanczos4 a dsize |}
        else Raise cv2_error
    | _ => Raise cv2_error
    end).

(** The picture [cv2.imwrite] stores for an array, when it can. *)
Definition encoded_picture (a : ndarray) : option pil_image :=
  let stored (h w : Z) (mode : string) :=
    if (0 <? h) && (0 <? w)
    then Some {| pil_size := (w, h); pil_mode := mode; raster := bgr_encode a |}
    else None in
  match shape a with
  | [h; w] => stored h w "L"
  | [h; w; c] =>
      if bool_decide (c = 1) then stored h w "L"
      else if bool_decide (c = 3) then stored h w "RGB"
      else if bool_decide (c = 4) then stored h w "RGBA"
      else None
  | _ => None
  end.

(** [cv2.imwrite(path, img)]: [False] when the file cannot be created. *)
Definition cv2_imwrite (path : string) (img : ndarray) : M bool := fun w =>
  match encoded_picture img with
  | Some p =>
      if negb (bool_decide (path ∈ dirs w)) && parent_exists w path
      then Ok (true, write_file cv2_write path (Picture p) w)
      else Ok (false, w)
  | None => Raise cv2_error
  end.

(** *** The script's functions *)

(** [numpy_to_pil(images)]. *)
Definition numpy_to_pil (images : np_images pixels) : result (list pil_image) :=
  let images :=
    match images with
    | OneImage image => [image]
    | ImageBatch images => images
    end in
  let images := round_uint8 <$> images in
  foldr (fun image pil_images =>
           result_bind (Image_fromarray image) (fun pil =>
           result_bind pil_images (fun rest => Ok (pil :: rest))))
        (Ok []) images.

(** [put_watermark(watermark_protection, img, wm_encoder)]. *)
Definition put_watermark (watermark_protection : Z) (img : pil_image)
    (wm_encoder : option WatermarkEncoder) : result pil_image :=
  if py_bool watermark_protection then
    match wm_encoder with
    | Some wm_encoder =>
        result_bind (cvtColor_RGB2BGR (np_array img)) (fun img =>
        result_bind (wm_encode wm_encoder img "dwtDct") (fun img =>
        result_bind (reverse_channels img) Image_fromarray))
    | None => Ok img
    end
  else Ok img.

(** The body of the [try] in [load_replacement]. *)
Definition load_replacement_try (x : ndarray) : M ndarray :=
  let hwc := shape x in
  y <- Image_open "assets/rick.jpeg" ;;
  let y := pil_convert "RGB" y in
  hwc1 <- lift (tuple_item hwc 1) ;;
  hwc0 <- lift (tuple_item hwc 0) ;;
  y <- lift (pil_resize y (hwc1, hwc0)) ;;
  let y := div255_astype (np_array y) (dtype x) in
  py_assert (bool_decide (shape y = shape x)) ;;;
  ret y.

(** [load_replacement(x)]. *)
Definition load_replacement (x : ndarray) : M ndarray :=
  try_except (load_replacement_try x) (fun _ => ret x).

(** The body of [for i in range(len(has_nsfw_concept))] in
    [check_safety]: [if has_nsfw_concept[i]: x_checked_image[i] =
    load_replacement(x_checked_image[i])]. *)
Definition substitute_flagged (has_nsfw_concept : list bool) (i : nat)
    (x_checked_image : list ndarray) : M (list ndarray) :=
  match has_nsfw_concept !! i, x_checked_image !! i with
  | Some true, Some x =>
      y <- load_replacement x ;;
      ret (<[i := y]> x_checked_image)
  | Some true, None => raise IndexError
  | _, _ => ret x_checked_image
  end.

(** [check_safety(nsfw_filter_switch, x_image)]. *)
Definition check_safety (nsfw_filter_switch : bool) (x_image : list ndarray)
    : M (list ndarray * nsfw_flags) :=
  if nsfw_filter_switch then
    pils <- lift (numpy_to_pil (ImageBatch x_image)) ;;
    safety_checker_input <- lift (safety_feature_extractor pils) ;;
    checked <- lift (safety_checker x_image safety_checker_input) ;;
    let x_checked_image := checked.1 in
    let has_nsfw_concept := checked.2 in
    py_assert (bool_decide (length x_checked_image = length has_nsfw_concept)) ;;;
    x_checked_image <-
      for_each (seq 0 (length has_nsfw_concept))
        (substitute_flagged has_nsfw_concept) x_checked_image ;;
    ret (x_checked_image, PyFlags has_nsfw_concept)
  else ret (x_image, PyFalse).

(** [resize_image(source_image, destination_image, width, height,
    resize_factor)]. *)
Definition resize_image (source_image destination_image : string)
    (width height resize_factor : Z) : M unit :=
  image_to_resize <- cv2_imread source_image ;;
  resized_image <- lift (cv2_resize image_to_resize
                           (width * resize_factor, height * resize_factor)) ;;
  cv2_imwrite destination_image resized_image ;;;
  ret tt.

(** [improve_image(source_image, destination_image)]. *)
Definition improve_image (source_image destination_image : string) : M unit :=
  image_to_improve <- cv2_imread source_image ;;
  image_to_improve <- lift (cv2_image image_to_improve) ;;
  image_improved <- lift (detailEnhance image_to_improve) ;;
  image_improved <- lift (edgePreservingFilter image_improved) ;;
  cv2_imwrite destination_image image_improved ;;;
  ret tt.

(** *** The options *)

(** The namespace [parser.parse_args()] returns. *)
Record options : Type := mk_options {
  opt_prompt : option string;
  opt_outdir : string;
  opt_skip_grid : bool;
  opt_skip_save : bool;
  opt_ddim_steps : Z;
  opt_plms : bool;
  opt_dpm_solver : bool;
  opt_laion400m : bool;
  opt_fixed_code : bool;
  opt_ddim_eta : py_float;
  opt_n_iter : Z;
  opt_H : Z;
  opt_W : Z;
  opt_C : Z;
  opt_f : Z;
  opt_n_samples : Z;
  opt_n_rows : Z;
  opt_scale : py_float;
  opt_from_file : option string;
  opt_config : string;
  opt_ckpt : string;
  opt_seed : Z;
  opt_precision : string;
  opt_nsfw_protection : Z;
  opt_resize_factor : Z;
  opt_watermark_protection : Z;
}.

(** How an option that takes a value appears on the command line. *)
Inductive cli_value : Type :=
| NotGiven
| GivenWithoutValue
| Given (value : string).

Definition default_prompt : string :=
  "a painting of a virus monster playing guitar".

(** What [read_prompt_parameter] makes of [--prompt]: [nargs="?"] with a
    default and no [const], so the bare option gives [None]. *)
Definition parsed_prompt (arg : cli_value) : option string :=
  match arg with
  | NotGiven => Some default_prompt
  | GivenWithoutValue => None
  | Given value => Some value
  end.

(** Truthiness of [opt.from_file]. *)
Definition from_file_given (from_file : option string) : bool :=
  match from_file with
  | Some path => negb (bool_decide (path = ""))
  | None => false
  end.

(** *** [main], after the model is loaded *)

(** [opt.outdir] after the LAION-400M fallback. *)
Definition outdir_of (opt : options) : string :=
  if opt_laion400m opt then "outputs/txt2img-samples-laion400m"
  else opt_outdir opt.

(** The choice of the sampler. *)
Definition select_sampler (opt : options) (model : model_t) : sampler :=
  if opt_dpm_solver opt then DPMSolverSampler model
  else if opt_plms opt then PLMSSampler model
  else DDIMSampler model.

(** The batches of prompts, [data]. *)
Definition prompt_data (opt : options) : M (list (list string)) :=
  let batch_size := opt_n_samples opt in
  if negb (from_file_given (opt_from_file opt)) then
    match opt_prompt opt with
    | Some prompt => ret [replicate (Z.to_nat batch_size) prompt]
    | None => raise AssertionError
    end
  else
    data <- read_text (default "" (opt_from_file opt)) ;;
    lift (chunk (str_splitlines data) batch_size).

(** The output folders and the two counters: [sample_path],
    [base_count] and [grid_count]. *)
Definition output_counters (outpath : string) : M (string * Z * Z) :=
  let sample_path := os_path_join outpath "samples" in
  os_makedirs (os_path_join sample_path "original") ;;;
  os_makedirs (os_path_join sample_path "resized") ;;;
  os_makedirs (os_path_join sample_path "improved") ;;;
  originals <- os_listdir (os_path_join sample_path "original") ;;
  outputs <- os_listdir outpath ;;
  ret (sample_path, Z.of_nat (length originals), Z.of_nat (length outputs) - 1).

(** [a // b]. *)
Definition floor_div (a b : Z) : result Z :=
  if b =? 0 then Raise ZeroDivisionError else Ok (a / b).

Definition start_code_of (opt : options) : result (option tensor) :=
  if opt_fixed_code opt then
    result_bind (floor_div (opt_H opt) (opt_f opt)) (fun h =>
    result_bind (floor_div (opt_W opt) (opt_f opt)) (fun w =>
    result_bind (torch_randn [opt_n_samples opt; opt_C opt; h; w]) (fun code =>
    Ok (Some code))))
  else Ok None.

(** One batch of prompts, from the conditioning to the decoded images
    [x_samples_ddim]. *)
Definition sample_images (opt : options) (model : model_t) (smp : sampler)
    (start_code : option tensor) (prompts : list string) : result (list ndarray) :=
  let batch_size := opt_n_samples opt in
  result_bind
    (if negb (Qeq_bool (opt_scale opt) 1)
     then result_bind
            (get_learned_conditioning model (replicate (Z.to_nat batch_size) ""))
            (fun uc => Ok (Some uc))
     else Ok None) (fun uc =>
  result_bind (get_learned_conditioning model prompts) (fun c =>
  result_bind (floor_div (opt_H opt) (opt_f opt)) (fun h =>
  result_bind (floor_div (opt_W opt) (opt_f opt)) (fun w =>
  let shape := [opt_C opt; h; w] in
  result_bind
    (sampler_sample smp (opt_ddim_steps opt) c (opt_n_samples opt) shape
       (opt_scale opt) uc (opt_ddim_eta opt) start_code) (fun samples_ddim =>
  result_bind (decode_first_stage model samples_ddim) (fun x_samples_ddim =>
  Ok (to_numpy_images x_samples_ddim))))))).

(** The body of [for x_sample in x_checked_image_torch]: the sample is
    written, resized and improved, and the counter moves on. The
    [permute] before the loop and the [rearrange] in it undo each other. *)
Definition save_sample (opt : options) (sample_path : string)
    (wm_encoder : WatermarkEncoder) (x_sample : ndarray) (base_count : Z) : M Z :=
  img <- lift (Image_fromarray (trunc_uint8 x_sample)) ;;
  img <- lift (put_watermark (opt_watermark_protection opt) img (Some wm_encoder)) ;;
  pil_save img
    (os_path_join sample_path
       ("original\" +:+ format_zero_padded 5 base_count +:+ ".png")) ;;;
  resize_image
    (os_path_join sample_path
       ("original\" +:+ format_zero_padded 5 base_count +:+ ".png"))
    (os_path_join sample_path
       ("resized\" +:+ format_zero_padded 5 base_count +:+ ".png"))
    (opt_W opt) (opt_H opt) (opt_resize_factor opt) ;;;
  improve_image
    (os_path_join sample_path
       ("resized\" +:+ format_zero_padded 5 base_count +:+ ".png"))
    (os_path_join sample_path
       ("improved\" +:+ format_zero_padded 5 base_count +:+ ".png")) ;;;
  ret (base_count + 1).

(** The body of [for prompts in data], on [base_count] and
    [all_samples]. *)
Definition process_prompts (opt : options) (model : model_t) (smp : sampler)
    (start_code : option tensor) (sample_path : string)
    (wm_encoder : WatermarkEncoder) (prompts : list string)
    (state : Z * list (list ndarray)) : M (Z * list (list ndarray)) :=
  x_samples_ddim <- lift (sample_images opt model smp start_code prompts) ;;
  checked <- check_safety (py_bool (opt_nsfw_protection opt)) x_samples_ddim ;;
  let x_checked_image := checked.1 in
  base_count <-
    (if negb (opt_skip_save opt)
     then for_each x_checked_image (save_sample opt sample_path wm_encoder) state.1
     else ret state.1) ;;
  ret (base_count,
       if negb (opt_skip_grid opt) then state.2 ++ [x_checked_image] else state.2).

(** [for n in trange(opt.n_iter): for prompts in data: ...]. *)
Definition sampling_loop (opt : options) (model : model_t) (smp : sampler)
    (start_code : option tensor) (sample_path : string)
    (wm_encoder : WatermarkEncoder) (data : list (list string))
    (base_count : Z) : M (Z * list (list ndarray)) :=
  for_each (seq 0 (Z.to_nat (opt_n_iter opt)))
    (fun _ => for_each data
                (process_prompts opt model smp start_code sample_path wm_encoder))
    (base_count, []).

(** The grid, unless [opt.skip_grid]. *)
Definition save_grid (opt : options) (outpath : string)
    (wm_encoder : WatermarkEncoder) (n_rows : Z)
    (all_samples : list (list ndarray)) (grid_count : Z) : M Z :=
  if negb (opt_skip_grid opt) then
    grid <- lift (make_grid_array all_samples n_rows) ;;
    img <- lift (Image_fromarray (trunc_uint8 grid)) ;;
    img <- lift (put_watermark (opt_watermark_protection opt) img (Some wm_encoder)) ;;
    pil_save img
      (os_path_join outpath ("grid-" +:+ format_zero_padded 4 grid_count +:+ ".png")) ;;;
    ret (grid_count + 1)
  else ret grid_count.

(** [main] from the choice of the sampler on; it returns the final
    [base_count] and [grid_count]. *)
Definition main_after_load (opt : options) (model : model_t) : M (Z * Z) :=
  let smp := select_sampler opt model in
  os_makedirs (outdir_of opt) ;;;
  let outpath := outdir_of opt in
  let wm_encoder := {| wm_type := "bytes"; wm_content := "StableDiffusionV1" |} in
  let batch_size := opt_n_samples opt in
  let n_rows := if 0 <? opt_n_rows opt then opt_n_rows opt else batch_size in
  data <- prompt_data opt ;;
  counters <- output_counters outpath ;;
  let sample_path := counters.1.1 in
  let base_count := counters.1.2 in
  let grid_count := counters.2 in
  start_code <- lift (start_code_of opt) ;;
  final <- sampling_loop opt model smp start_code sample_path wm_encoder data
             base_count ;;
  grid_count <- save_grid opt outpath wm_encoder n_rows final.2 grid_count ;;
  ret (final.1, grid_count).

(** *** Words for the properties *)

(** [y] is the placeholder picture [assets/rick.jpeg] of the disk [w],
    as RGB, resized to the height and width of [x], scaled to [x]'s
    element type, and of the shape of [x]. *)
Definition is_resized_placeholder (w : world) (x y : ndarray) : Prop :=
  exists (p r : pil_image) (h wd : Z),
    files w !! "assets/rick.jpeg" = Some (Picture p) /\
    shape x !! 0%nat = Some h /\
    shape x !! 1%nat = Some wd /\
    pil_resize (pil_convert "RGB" p) (wd, h) = Ok r /\
    pil_size r = (wd, h) /\
    y = div255_astype (np_array r) (dtype x) /\
    shape y = shape x.

(** C3 as the specification states it: wherever the classifier flags
    an image, the returned batch holds the resized placeholder. *)
Definition flagged_hold_placeholder (x_image : list ndarray) (w : world) : Prop :=
  forall out flags w' pils clip_input checked has_nsfw_concept,
    check_safety true x_image w = Ok ((out, flags), w') ->
    numpy_to_pil (ImageBatch x_image) = Ok pils ->
    safety_feature_extractor pils = Ok clip_input ->
    safety_checker x_image clip_input = Ok (checked, has_nsfw_concept) ->
    forall i x, checked !! i = Some x ->
      (has_nsfw_concept !! i = Some true ->
         exists y, is_resized_placeholder w x y /\ out !! i = Some y) /\
      (has_nsfw_concept !! i = Some false -> out !! i = Some x).


(** The samples a log shows as saved: its [img.save] entries. *)
Definition saved_samples (log : list (writer * string)) : nat :=
  length (filter (fun entry => entry.1 = PIL_save) log).

(** The three folders a sample is written to. *)
Definition variants : list string := ["original"; "resized"; "improved"].

(** [path] is, under [sample_path], a variant folder's name, a
    backslash, the counter [n] padded with zeros to five digits, and
    [.png]. *)
Definition backslash_name (sample_path : string) (n : Z) (path : string) : Prop :=
  exists variant,
    variant ∈ variants /\
    path = os_path_join sample_path
             (variant +:+ "\" +:+ format_zero_padded 5 n +:+ ".png").

(** What holds of the counter [base_count] and the disk [w] at every
    point of the saving loop that started on the disk [w0] with the
    counter [b0]: the log has grown by entries that are all sample files
    named by counters from [b0] up to [base_count], and as many of them
    are [img.save] entries as the counter has moved. *)
Definition counts_samples (sample_path : string) (w0 : world) (b0 : Z)
    (base_count : Z) (w : world) : Prop :=
  exists new,
    written w = new ++ written w0 /\
    b0 <= base_count /\
    Z.of_nat (saved_samples new) = base_count - b0 /\
    Forall (fun entry => exists n, b0 <= n < base_count /\
                                   backslash_name sample_path n entry.2) new.

End Script.

Arguments Libraries : clear implicits.
Arguments sampler : clear implicits.

(** The options when the command line gives none, for a drawn [seed]. *)
Definition default_options (seed : Z) : options :=
  {| opt_prompt := parsed_prompt NotGiven;
     opt_outdir := "outputs/txt2img-samples";
     opt_skip_grid := false;
     opt_skip_save := false;
     opt_ddim_steps := 50;
     opt_plms := false;
     opt_dpm_solver := false;
     opt_laion400m := false;
     opt_fixed_code := false;
     opt_ddim_eta := 0%Q;
     opt_n_iter := 2;
     opt_H := 512;
     opt_W := 512;
     opt_C := 4;
     opt_f := 8;
     opt_n_samples := 3;
     opt_n_rows := 0;
     opt_scale := (15 # 2)%Q;
     opt_from_file := None;
     opt_config := "configs/stable-diffusion/v1-inference.yaml";
     opt_ckpt := "models/ldm/stable-diffusion-v1/model.ckpt";
     opt_seed := seed;
     opt_precision := "autocast";
     opt_nsfw_protection := 0;
     opt_resize_factor := 2;
     opt_watermark_protection := 0 |}.

(** ** A small instance of the libraries, to run the script on

    Pixel buffers are numbers that name their content; every filter hands
    its buffer on; the classifier flags the images whose buffer is
    negative; the model decodes every batch to the two images
    [example_images]. *)
Module Example.

Definition image (h w : Z) (content : Z) : ndarray Z :=
  {| shape := [h; w; 3]; dtype := float32; buffer := content |}.

Definition example_images : list (ndarray Z) := [image 2 2 7; image 2 2 8].

Definition as_uint8 (a : ndarray Z) : ndarray Z :=
  {| shape := shape a; dtype := uint8; buffer := buffer a |}.

Definition fromarray (a : ndarray Z) : result (pil_image Z) :=
  match shape a with
  | [h; w] => Ok {| pil_size := (w, h); pil_mode := "L"; raster := buffer a |}
  | [h; w; c] =>
      if bool_decide (c = 3)
      then Ok {| pil_size := (w, h); pil_mode := "RGB"; raster := buffer a |}
      else if bool_decide (c = 4)
      then Ok {| pil_size := (w, h); pil_mode := "RGBA"; raster := buffer a |}
      else Raise TypeError
  | _ => Raise TypeError
  end.

#[export] Instance libs : Libraries Z unit unit :=
  {| Image_fromarray := fromarray;
     convert_raster := fun _ im => raster im;
     resample_raster := fun im _ => raster im;
     unit_scale := fun px _ => px;
     round_uint8 := as_uint8;
     trunc_uint8 := as_uint8;
     safety_feature_extractor := fun _ => Ok tt;
     safety_checker := fun images _ =>
       Ok (images, (fun a => buffer a <? 0) <$> images);
     cvtColor_RGB2BGR := Ok;
     wm_encode := fun _ a _ => Ok a;
     reverse_channels := Ok;
     bgr_decode := raster;
     bgr_encode := buffer;
     lanczos4 := fun a _ => buffer a;
     detailEnhance := Ok;
     edgePreservingFilter := Ok;
     str_splitlines := fun s => [s];
     get_learned_conditioning := fun _ _ => Ok tt;
     sampler_sample := fun _ _ _ _ _ _ _ _ _ => Ok tt;
     decode_first_stage := fun _ t => Ok t;
     to_numpy_images := fun _ => example_images;
     torch_randn := fun _ => Ok tt;
     make_grid_array := fun all_samples _ =>
       match all_samples with
       | (a :: _) :: _ => Ok a
       | _ => Raise RuntimeError
       end |}.

(** An empty disk. *)
Definition empty_world : world Z :=
  {| files := ∅; dirs := ∅; written := [] |}.

(** A disk with one 4 x 4 picture, [a.png]. *)
Definition one_picture : world Z :=
  {| files := {[ "a.png" := Picture {| pil_size := (4, 4); pil_mode := "RGB";
                                       raster := 1 |} ]};
     dirs := ∅;
     written := [] |}.

(** A disk that holds the placeholder, a 5 x 5 picture. *)
Definition with_placeholder : world Z :=
  {| files := {[ "assets/rick.jpeg" := Picture {| pil_size := (5, 5);
                                                  pil_mode := "RGB";
                                                  raster := 9 |} ]};
     dirs := ∅;
     written := [] |}.

(** A batch whose first image the classifier flags. *)
Definition flagged_batch : list (ndarray Z) := [image 2 2 (-1); image 2 2 7].

(** That batch with the placeholder, resized to 2 x 2, for its first
    image. *)
Definition substituted_batch : list (ndarray Z) :=
  [ {| shape := [2; 2; 3]; dtype := float32; buffer := 9 |}; image 2 2 7 ].

(** A disk on which the output folder [out] exists and is empty. *)
Definition prepared : world Z :=
  {| files := ∅; dirs := {[ "out" ]}; written := [] |}.

(** That disk once [output_counters] has made the sample folders. *)
Definition counted : world Z :=
  match output_counters "out" prepared with
  | Ok (_, w) => w
  | Raise _ => prepared
  end.

(** The default options with another prompt and other sampler flags. *)
Definition options_with (prompt : option string) (dpm_solver plms : bool)
    : options :=
  let opt := default_options 1 in
  {| opt_prompt := prompt;
     opt_outdir := opt_outdir opt;
     opt_skip_grid := opt_skip_grid opt;
     opt_skip_save := opt_skip_save opt;
     opt_ddim_steps := opt_ddim_steps opt;
     opt_plms := plms;
     opt_dpm_solver := dpm_solver;
     opt_laion400m := opt_laion400m opt;
     opt_fixed_code := opt_fixed_code opt;
     opt_ddim_eta := opt_ddim_eta opt;
     opt_n_iter := opt_n_iter opt;
     opt_H := opt_H opt;
     opt_W := opt_W opt;
     opt_C := opt_C opt;
     opt_f := opt_f opt;
     opt_n_samples := opt_n_samples opt;
     opt_n_rows := opt_n_rows opt;
     opt_scale := opt_scale opt;
     opt_from_file := opt_from_file opt;
     opt_config := opt_config opt;
     opt_ckpt := opt_ckpt opt;
     opt_seed := opt_seed opt;
     opt_precision := opt_precision opt;
     opt_nsfw_protection := opt_nsfw_protection opt;
     opt_resize_factor := opt_resize_factor opt;
     opt_watermark_protection := opt_watermark_protection opt |}.

Definition encoder : WatermarkEncoder :=
  {| wm_type := "bytes"; wm_content := "StableDiffusionV1" |}.

End Example.

(** ** Words for the further properties *)

(** The number a string of decimal digits stands for, as Python's
    [int(s)] reads a counter back from a file name. *)
Definition counter_of_digits (s : string) : option N :=
  N.of_uint <$> NilEmpty.uint_of_string s.

(** The paths of the [img.save] entries of a log, latest first. *)
Definition saved_paths (log : list (writer * string)) : list string :=
  (filter (fun entry => entry.1 = PIL_save) log).*2.

(** The name [save_sample] gives the original of sample number [n]. *)
Definition original_name (sample_path : string) (n : Z) : string :=
  os_path_join sample_path ("original" +:+ "\" +:+ format_zero_padded 5 n +:+ ".png").

(** What holds of the counter and the disk at every point of the saving
    loop that started on the disk [w0] with the counter [b0], besides
    [counts_samples]: the [img.save] entries of the log name the originals
    [b0], [b0 + 1], ... up to the counter, no folder was made, and every
    path that is not in the log holds what it held, and every path in the
    log holds a file. *)
Definition saves_in_order {pixels : Type} (sample_path : string)
    (w0 : world pixels) (b0 : Z) (base_count : Z) (w : world pixels) : Prop :=
  exists new,
    written w = new ++ written w0 /\
    b0 <= base_count /\
    saved_paths new
      = reverse (original_name sample_path <$> seqZ b0 (base_count - b0)) /\
    Forall (fun entry => exists n, b0 <= n < base_count /\
                                   backslash_name sample_path n entry.2) new /\
    dirs w = dirs w0 /\
    (forall p, p ∉ new.*2 -> files w !! p = files w0 !! p) /\
    (forall p, p ∈ new.*2 -> is_Some (files w !! p)).

(** ** More runs on the example libraries *)
Module MoreExamples.

(** The default options with a prompt file, a batch size and the two
    skip flags set. *)
Definition options_of (from_file : option string) (n_samples : Z)
    (skip_grid skip_save : bool) : options :=
  let opt := default_options 1 in
  {| opt_prompt := None;
     opt_outdir := opt_outdir opt;
     opt_skip_grid := skip_grid;
     opt_skip_save := skip_save;
     opt_ddim_steps := opt_ddim_steps opt;
     opt_plms := opt_plms opt;
     opt_dpm_solver := opt_dpm_solver opt;
     opt_laion400m := opt_laion400m opt;
     opt_fixed_code := opt_fixed_code opt;
     opt_ddim_eta := opt_ddim_eta opt;
     opt_n_iter := opt_n_iter opt;
     opt_H := opt_H opt;
     opt_W := opt_W opt;
     opt_C := opt_C opt;
     opt_f := opt_f opt;
     opt_n_samples := n_samples;
     opt_n_rows := opt_n_rows opt;
     opt_scale := opt_scale opt;
     opt_from_file := from_file;
     opt_config := opt_config opt;
     opt_ckpt := opt_ckpt opt;
     opt_seed := opt_seed opt;
     opt_precision := opt_precision opt;
     opt_nsfw_protection := opt_nsfw_protection opt;
     opt_resize_factor := opt_resize_factor opt;
     opt_watermark_protection := opt_watermark_protection opt |}.

(** The default options with a fixed start code and a downsampling
    factor of zero. *)
Definition zero_factor_options : options :=
  let opt := default_options 1 in
  {| opt_prompt := opt_prompt opt;
     opt_outdir := opt_outdir opt;
     opt_skip_grid := opt_skip_grid opt;
     opt_skip_save := opt_skip_save opt;
     opt_ddim_steps := opt_ddim_steps opt;
     opt_plms := opt_plms opt;
     opt_dpm_solver := opt_dpm_solver opt;
     opt_laion400m := opt_laion400m opt;
     opt_fixed_code := true;
     opt_ddim_eta := opt_ddim_eta opt;
     opt_n_iter := opt_n_iter opt;
     opt_H := opt_H opt;
     opt_W := opt_W opt;
     opt_C := opt_C opt;
     opt_f := 0;
     opt_n_samples := opt_n_samples opt;
     opt_n_rows := opt_n_rows opt;
     opt_scale := opt_scale opt;
     opt_from_file := opt_from_file opt;
     opt_config := opt_config opt;
     opt_ckpt := opt_ckpt opt;
     opt_seed := opt_seed opt;
     opt_precision := opt_precision opt;
     opt_nsfw_protection := opt_nsfw_protection opt;
     opt_resize_factor := opt_resize_factor opt;
     opt_watermark_protection := opt_watermark_protection opt |}.


(** An array that [Image.fromarray] of the example libraries refuses. *)
Definition two_channels : ndarray Z :=
  {| shape := [2; 2; 2]; dtype := float32; buffer := 5 |}.

End MoreExamples.

(** * Properties *)

Section ChunkFacts.
Context {A : Type}.
Implicit Types (it : list A) (size : nat).

Lemma chunk_from_step size it :
  chunk_from size it =
  match take size it with
  | [] => []
  | t => t :: chunk_from size (drop size it)
  end.
Proof.
  funelim (chunk_from size it).
  - simpl in e. now rewrite e.
  - simpl in *. now rewrite E.
Qed.

Lemma chunk_from_nil size : chunk_from size (@nil A) = [].
Proof. rewrite chunk_from_step. now rewrite take_nil. Qed.

Lemma chunk_from_cons size it :
  (0 < size)%nat -> it <> [] ->
  chunk_from size it = take size it :: chunk_from size (drop size it).
Proof.
  intros Hs Hit. rewrite chunk_from_step.
  destruct it as [|x it]; [congruence|].
  destruct size as [|n]; [lia|]. reflexivity.
Qed.






End ChunkFacts.



(** ** A run of the script, step by step *)

Section Runs.
Context {pixels : Type}.
Local Abbreviation M := (M pixels).
Local Abbreviation world := (world pixels).

Lemma bind_ok {A B} (m : M A) (k : A -> M B) w b w' :
  bind m k w = Ok (b, w') ->
  exists a w1, m w = Ok (a, w1) /\ k a w1 = Ok (b, w').
Proof.
  unfold bind. destruct (m w) as [[a w1]|e]; [|discriminate].
  intros Hk. now exists a, w1.
Qed.

Lemma lift_ok {A} (r : result A) (w : world) a w' :
  lift r w = Ok (a, w') -> r = Ok a /\ w' = w.
Proof. unfold lift. destruct r; [|discriminate]. now intros [= -> ->]. Qed.

Lemma ret_ok {A} (a : A) (w : world) b w' :
  ret a w = Ok (b, w') -> b = a /\ w' = w.
Proof. now intros [= -> ->]. Qed.

Lemma py_assert_ok cond (w : world) u w' :
  py_assert cond w = Ok (u, w') -> cond = true /\ w' = w.
Proof. destruct cond; [|discriminate]. now intros [= _ ->]. Qed.

(** A property of the loop state and the disk that every round keeps
    holds when the loop is left. *)
Lemma for_each_invariant {X S} (Inv : S -> world -> Prop)
    (body : X -> S -> M S) (l : list X) :
  (forall x s w s' w', x ∈ l -> Inv s w -> body x s w = Ok (s', w') -> Inv s' w') ->
  forall s w s' w',
    Inv s w -> for_each l body s w = Ok (s', w') -> Inv s' w'.
Proof.
  induction l as [|x l IH]; intros Hbody s w s' w' Hinv Hrun.
  - apply ret_ok in Hrun as [-> ->]. exact Hinv.
  - simpl in Hrun. apply bind_ok in Hrun as (s1 & w1 & Hx & Hrest).
    eapply IH; [|eapply (Hbody x); [left|exact Hinv|exact Hx]|exact Hrest].
    intros y t v t' v' Hy. apply Hbody. now right.
Qed.

End Runs.

(** Takes apart a hypothesis that says a sequence of steps returned. *)
Ltac run_inv H :=
  let a := fresh "a" in
  let w := fresh "w" in
  let Ha := fresh "Hstep" in
  lazymatch type of H with
  | bind _ _ _ = Ok _ =>
      apply bind_ok in H as (a & w & Ha & H); run_inv Ha; run_inv H
  | lift _ _ = Ok _ => apply lift_ok in H as [H ->]
  | ret _ _ = Ok _ =>
      apply ret_ok in H as [H ->]; first [injection H as -> ->|subst]
  | py_assert _ _ = Ok _ => apply py_assert_ok in H as [H ->]
  | _ => idtac
  end.

Section Properties.
Context {pixels model_t tensor : Type} {libs : Libraries pixels model_t tensor}.
Local Abbreviation ndarray := (ndarray pixels).
Local Abbreviation pil_image := (pil_image pixels).
Local Abbreviation world := (world pixels).

(** C2. With the switch off, [check_safety] returns the very array it
    was given, with the flag [False], which is falsy; the disk is not
    touched. *)
Theorem check_safety_disabled (x_image : list ndarray) (w : world) :
  check_safety false x_image w = Ok ((x_image, PyFalse), w) /\
  py_truthy PyFalse = false.
Proof. split; reflexivity. Qed.

(** C4. With the switch off (a zero [watermark_protection]), or with no
    encoder, [put_watermark] returns the image it was given. *)
Theorem put_watermark_disabled :
  (forall (img : pil_image) wm_encoder, put_watermark 0 img wm_encoder = Ok img) /\
  (forall watermark_protection (img : pil_image),
     put_watermark watermark_protection img None = Ok img).
Proof.
  split.
  - reflexivity.
  - intros watermark_protection img. unfold put_watermark.
    now destruct (py_bool watermark_protection).
Qed.

(** C9. The sampler is the DPM-solver sampler when [dpm_solver] is set,
    else the PLMS sampler when [plms] is set, else the DDIM sampler. *)
Theorem select_sampler_cases (opt : options) (model : model_t) :
  (opt_dpm_solver opt = true ->
     select_sampler opt model = DPMSolverSampler model) /\
  (opt_dpm_solver opt = false -> opt_plms opt = true ->
     select_sampler opt model = PLMSSampler model) /\
  (opt_dpm_solver opt = false -> opt_plms opt = false ->
     select_sampler opt model = DDIMSampler model).
Proof.
  unfold select_sampler. repeat split.
  - now intros ->.
  - now intros -> ->.
  - now intros -> ->.
Qed.

(** C8. Without a prompt file, a null prompt makes the assertion fail,
    nothing in [main] catches it, and with the default prompt the
    batches are built and the assertion does not fail. *)
Theorem prompt_assertion (opt : options) (model : model_t) (w : world) :
  from_file_given (opt_from_file opt) = false ->
  (opt_prompt opt = None ->
     prompt_data opt w = Raise AssertionError /\
     forall w1, os_makedirs (outdir_of opt) w = Ok (tt, w1) ->
                main_after_load opt model w = Raise AssertionError) /\
  (opt_prompt opt = parsed_prompt NotGiven ->
     prompt_data opt w =
       Ok ([replicate (Z.to_nat (opt_n_samples opt)) default_prompt], w) /\
     prompt_data opt w <> Raise AssertionError).
Proof.
  intros Hfile. unfold main_after_load, prompt_data. rewrite Hfile. simpl.
  split.
  - intros ->. split; [reflexivity|].
    intros w1 Hdir. unfold bind at 1. now rewrite Hdir.
  - intros ->. split; [reflexivity|discriminate].
Qed.

(** *** The placeholder *)

Lemma Image_open_ok path (w : world) p w' :
  Image_open path w = Ok (p, w') ->
  files w !! path = Some (Picture p) /\ w' = w.
Proof.
  unfold Image_open. destruct (files w !! path) as [[q|s]|]; try discriminate.
  - now intros [= -> ->].
  - destruct (bool_decide _); discriminate.
Qed.

Lemma tuple_item_ok t i v : tuple_item t i = Ok v -> t !! i = Some v.
Proof. unfold tuple_item. destruct (t !! i); [|discriminate]. now intros [= ->]. Qed.

Lemma pil_resize_size (im r : pil_image) size :
  pil_resize im size = Ok r -> pil_size r = size.
Proof.
  unfold pil_resize. destruct (_ && _); [|discriminate]. now intros [= <-].
Qed.

(** The [try] body returns exactly the resized placeholder, and leaves
    the disk as it is. *)
Lemma load_replacement_try_ok (x y : ndarray) (w w' : world) :
  load_replacement_try x w = Ok (y, w') <->
  w' = w /\ is_resized_placeholder w x y.
Proof.
  unfold load_replacement_try. split.
  - intros Hrun. run_inv Hrun.
    apply Image_open_ok in Hstep as [Hfile ->].
    apply tuple_item_ok in Hstep1, Hstep0.
    apply bool_decide_eq_true in Hstep3.
    split; [reflexivity|].
    eexists _, _, _, _. repeat split; try eassumption.
    eapply pil_resize_size; eassumption.
  - intros [-> (p & r & h & wd & Hfile & Hh & Hwd & Hr & _ & -> & Hshape)].
    unfold bind, Image_open, lift, tuple_item, py_assert, ret.
    rewrite Hfile, Hwd, Hh, Hr.
    now rewrite bool_decide_eq_true_2 by exact Hshape.
Qed.

(** [load_replacement] always returns, on the same disk: the resized
    placeholder when there is one, and else its argument. *)
Lemma load_replacement_cases (x : ndarray) (w : world) :
  (exists y, is_resized_placeholder w x y /\ load_replacement x w = Ok (y, w)) \/
  ((forall y, ~ is_resized_placeholder w x y) /\
   (exists e, load_replacement_try x w = Raise e) /\
   load_replacement x w = Ok (x, w)).
Proof.
  unfold load_replacement, try_except.
  destruct (load_replacement_try x w) as [[y w']|e] eqn:Htry.
  - apply load_replacement_try_ok in Htry as [-> Hy]. left. now exists y.
  - right. split; [|split; [now exists e|reflexivity]].
    intros y Hy.
    assert (load_replacement_try x w = Ok (y, w)) as Hok
      by (apply load_replacement_try_ok; now split).
    congruence.
Qed.

Lemma load_replacement_same_disk (x y : ndarray) (w w' : world) :
  load_replacement x w = Ok (y, w') -> w' = w.
Proof.
  destruct (load_replacement_cases x w) as [(y' & _ & H)|(_ & _ & H)];
    rewrite H; now intros [= _ <-].
Qed.

(** C10. [load_replacement] never raises: it returns on every array and
    every disk, and when opening, resizing or the shape check of the
    placeholder raises, whatever the exception, it returns its argument. *)
Theorem load_replacement_never_raises (x : ndarray) (w : world) :
  (exists y, load_replacement x w = Ok (y, w)) /\
  (forall e, load_replacement_try x w = Raise e ->
             load_replacement x w = Ok (x, w)) /\
  (forall e, load_replacement x w <> Raise e).
Proof.
  split; [|split].
  - destruct (load_replacement_cases x w) as [(y & _ & H)|(_ & _ & H)]; eauto.
  - intros e He. unfold load_replacement, try_except. now rewrite He.
  - intros e. destruct (load_replacement_cases x w) as [(y & _ & H)|(_ & _ & H)];
      rewrite H; discriminate.
Qed.

(** The three ways the [try] body can fail. *)
Lemma load_replacement_missing_file (x : ndarray) (w : world) :
  files w !! "assets/rick.jpeg" = None ->
  (exists e, load_replacement_try x w = Raise e) /\
  load_replacement x w = Ok (x, w).
Proof.
  intros Hfile.
  assert (exists e, load_replacement_try x w = Raise e) as [e Htry].
  { unfold load_replacement_try, bind, Image_open. rewrite Hfile.
    destruct (bool_decide _); eauto. }
  split; [now exists e|]. unfold load_replacement, try_except. now rewrite Htry.
Qed.

Lemma load_replacement_resize_fails (x : ndarray) (w : world) p h wd :
  files w !! "assets/rick.jpeg" = Some (Picture p) ->
  shape x = h :: wd :: drop 2 (shape x) ->
  h <= 0 \/ wd <= 0 ->
  load_replacement_try x w = Raise ValueError /\
  load_replacement x w = Ok (x, w).
Proof.
  intros Hfile Hshape Hneg.
  assert (load_replacement_try x w = Raise ValueError) as Htry.
  { unfold load_replacement_try, bind, Image_open, lift, tuple_item, pil_resize.
    rewrite Hfile, Hshape. simpl.
    destruct (Z.ltb_spec 0 wd), (Z.ltb_spec 0 h); simpl; try reflexivity; lia. }
  split; [exact Htry|]. unfold load_replacement, try_except. now rewrite Htry.
Qed.

Lemma load_replacement_shape_differs (x : ndarray) (w : world) p h wd :
  files w !! "assets/rick.jpeg" = Some (Picture p) ->
  shape x !! 0%nat = Some h -> shape x !! 1%nat = Some wd ->
  0 < h -> 0 < wd ->
  shape x <> [h; wd; 3] ->
  load_replacement_try x w = Raise AssertionError /\
  load_replacement x w = Ok (x, w).
Proof.
  intros Hfile Hh Hwd Hhpos Hwpos Hshape.
  assert (load_replacement_try x w = Raise AssertionError) as Htry.
  { unfold load_replacement_try, bind, Image_open, lift, tuple_item, pil_resize.
    rewrite Hfile, Hwd, Hh. cbn [fst snd].
    destruct (Z.ltb_spec 0 wd), (Z.ltb_spec 0 h); try lia. cbn.
    rewrite bool_decide_eq_false_2; [reflexivity|].
    intros Heq. apply Hshape. now rewrite <- Heq. }
  split; [exact Htry|]. unfold load_replacement, try_except. now rewrite Htry.
Qed.

(** *** The safety substitution *)

Lemma substitute_flagged_ok has i (s s' : list ndarray) (w w' : world) :
  substitute_flagged has i s w = Ok (s', w') ->
  w' = w /\
  ((has !! i = Some true /\
    exists x y, s !! i = Some x /\ load_replacement x w = Ok (y, w) /\
                s' = <[i := y]> s) \/
   (has !! i <> Some true /\ s' = s)).
Proof.
  unfold substitute_flagged.
  destruct (has !! i) as [[|]|] eqn:Hflag.
  - destruct (s !! i) as [x|] eqn:Hx; [|discriminate].
    intros Hrun. run_inv Hrun.
    pose proof (load_replacement_same_disk _ _ _ _ Hstep) as ->.
    split; [reflexivity|]. left. split; [reflexivity|]. now exists x, a.
  - intros Hrun. run_inv Hrun. split; [reflexivity|]. right. now split.
  - intros Hrun. run_inv Hrun. split; [reflexivity|]. right. now split.
Qed.

(** The loop over [range(k, k + m)]: a flagged index in the range holds
    what [load_replacement] returns for the image that was there; every
    other index is as before. *)
Lemma substitution_loop has m : forall k (s out : list ndarray) (w w' : world),
  for_each (seq k m) (substitute_flagged has) s w = Ok (out, w') ->
  w' = w /\ length out = length s /\
  forall i x, s !! i = Some x ->
    ((k <= i < k + m)%nat -> has !! i = Some true ->
       exists y, load_replacement x w = Ok (y, w) /\ out !! i = Some y) /\
    (((i < k)%nat \/ (k + m <= i)%nat \/ has !! i <> Some true) ->
       out !! i = Some x).
Proof.
  induction m as [|m IH]; intros k s out w w' Hrun.
  - simpl in Hrun. run_inv Hrun. repeat split; [lia|]. now intros _.
  - simpl in Hrun. apply bind_ok in Hrun as (s1 & w1 & Hk & Hrest).
    apply substitute_flagged_ok in Hk as [-> Hk].
    apply IH in Hrest as (-> & Hlen & Hout).
    assert (length s1 = length s) as Hlen1
      by (destruct Hk as [(_ & x & y & _ & _ & ->)|[_ ->]];
          [apply length_insert|reflexivity]).
    split; [reflexivity|]. split; [congruence|].
    intros i x Hi.
    destruct (decide (i = k)) as [->|Hne].
    + destruct Hk as [(Hflag & x' & y & Hx' & Hy & ->)|[Hflag ->]].
      * assert (x' = x) as -> by congruence.
        assert ((<[k := y]> s) !! k = Some y) as Hky
          by (apply list_lookup_insert_eq; eapply lookup_lt_Some; eassumption).
        split.
        -- intros _ _. exists y. split; [assumption|].
           apply (Hout k y Hky). left. lia.
        -- intros [?|[?|?]]; [lia|lia|congruence].
      * split; [congruence|]. intros _. apply (Hout k x Hi). left. lia.
    + assert (s1 !! i = Some x) as Hi1
        by (destruct Hk as [(_ & x' & y & _ & _ & ->)|[_ ->]];
            [rewrite list_lookup_insert_ne by congruence|]; assumption).
      destruct (Hout i x Hi1) as [Hin Hother]. split.
      * intros Hrange Hflag. apply Hin; [lia|assumption].
      * intros [?|[?|?]]; apply Hother; [left; lia|right; left; lia|now right; right].
Qed.

(** C3 as amended. When [check_safety] runs with the switch on and
    returns, the flags it returns are the classifier's, the batch has
    the classifier's length, and for every index: if the classifier
    flagged it, the batch holds there the placeholder resized to the
    height and width of the classifier's image, when the placeholder
    loads, resizes and has that image's shape, and the classifier's
    image itself when it does not; if it is not flagged, the batch
    holds the classifier's image. The disk is not changed. *)
Theorem check_safety_enabled (x_image out : list ndarray) flags (w w' : world) :
  check_safety true x_image w = Ok ((out, flags), w') ->
  exists pils clip_input checked has_nsfw_concept,
    numpy_to_pil (ImageBatch x_image) = Ok pils /\
    safety_feature_extractor pils = Ok clip_input /\
    safety_checker x_image clip_input = Ok (checked, has_nsfw_concept) /\
    flags = PyFlags has_nsfw_concept /\
    w' = w /\
    length out = length checked /\
    length checked = length has_nsfw_concept /\
    forall i x, checked !! i = Some x ->
      (has_nsfw_concept !! i = Some true ->
         (exists y, is_resized_placeholder w x y /\ out !! i = Some y) \/
         ((forall y, ~ is_resized_placeholder w x y) /\ out !! i = Some x)) /\
      (has_nsfw_concept !! i = Some false -> out !! i = Some x).
Proof.
  unfold check_safety. intros Hrun. run_inv Hrun.
  destruct a1 as [checked has]. simpl in *.
  apply bool_decide_eq_true in Hstep2.
  apply substitution_loop in Hstep3 as (-> & Hlen & Hout).
  exists a, a0, checked, has. repeat split; try assumption.
  - rename H into Hi. intros Hflag. destruct (Hout i x Hi) as [Hin _].
    destruct Hin as (y & Hy & Hiy); [|assumption|].
    { apply lookup_lt_Some in Hflag. lia. }
    destruct (load_replacement_cases x w) as [(y' & Hpl & Hy')|(Hno & _ & Hy')].
    + left. exists y'. split; [assumption|]. congruence.
    + right. split; [assumption|]. congruence.
  - rename H into Hi. intros Hflag. destruct (Hout i x Hi) as [_ Hother].
    apply Hother. right. right. congruence.
Qed.

(** *** Resizing *)


Lemma cv2_imread_same_disk path (w w' : world) r :
  cv2_imread path w = Ok (r, w') -> w' = w.
Proof.
  unfold cv2_imread. destruct (files w !! path) as [[p|s]|]; now intros [= _ <-].
Qed.

(** [cv2.resize] gives the size it is asked for. *)
Lemma cv2_resize_shape (src : option ndarray) dsize r :
  cv2_resize src dsize = Ok r ->
  exists a h wd channels,
    src = Some a /\ shape a = h :: wd :: channels /\
    0 < dsize.1 /\ 0 < dsize.2 /\
    shape r = dsize.2 :: dsize.1 :: channels.
Proof.
  unfold cv2_resize, cv2_image, result_bind.
  destruct src as [a|]; [|discriminate].
  destruct (shape a) as [|h [|wd channels]] eqn:Hshape; try discriminate.
  destruct (_ && _) eqn:Hpos; [|discriminate].
  intros [= <-]. exists a, h, wd, channels.
  apply andb_prop in Hpos as [Hpos H2]. apply andb_prop in Hpos as [_ H1].
  apply Z.ltb_lt in H1, H2. now repeat split.
Qed.

(** What [cv2.imwrite] does to the disk: one write, or none. *)
Lemma cv2_imwrite_ok path (img : ndarray) (w w' : world) done :
  cv2_imwrite path img w = Ok (done, w') ->
  exists p, encoded_picture img = Some p /\
    ((done = true /\ w' = write_file cv2_write path (Picture p) w) \/
     (done = false /\ w' = w)).
Proof.
  unfold cv2_imwrite. destruct (encoded_picture img) as [p|]; [|discriminate].
  destruct (_ && _); intros [= <- <-]; exists p; (split; [reflexivity|]);
    [left|right]; now split.
Qed.


(** Whenever [resize_image] returns, what it wrote, if anything, has
    the size asked for. *)
Lemma resize_image_ok source_image destination_image width height resize_factor
    (w w' : world) :
  resize_image source_image destination_image width height resize_factor w
    = Ok (tt, w') ->
  w' = w \/
  exists o, w' = write_file cv2_write destination_image (Picture o) w /\
            pil_size o = (width * resize_factor, height * resize_factor).
Proof.
  unfold resize_image. intros Hrun. run_inv Hrun.
  apply cv2_imread_same_disk in Hstep as ->.
  apply cv2_resize_shape in Hstep0 as (src & h & wd & ch & _ & _ & Hw & Hh & Hshape).
  apply cv2_imwrite_ok in Hstep1 as (p & Hp & [[_ ->]|[_ ->]]); [right|now left].
  exists p. split; [reflexivity|].
  unfold encoded_picture in Hp. rewrite Hshape in Hp. cbn [fst snd] in *.
  destruct ch as [|c [|c' ch]]; try discriminate;
    repeat (case_bool_decide; try discriminate);
    destruct (_ && _); try discriminate; now injection Hp as <-.
Qed.

(** *** The saving loop *)

Lemma string_app_assoc (a b c : string) : (a +:+ b) +:+ c = a +:+ b +:+ c.
Proof.
  induction a as [|ch a IH]; [reflexivity|].
  change (String ch ((a +:+ b) +:+ c) = String ch (a +:+ b +:+ c)).
  now rewrite IH.
Qed.

(** [os.path.join] keeps its second argument as the end of the path. *)
Lemma os_path_join_suffix (a b : string) :
  exists pre, os_path_join a b = pre +:+ b.
Proof.
  unfold os_path_join. destruct (String.prefix "/" b).
  - now exists "".
  - destruct (_ || _).
    + now exists a.
    + exists (a +:+ "/"). now rewrite string_app_assoc.
Qed.

Lemma saved_samples_app (l1 l2 : list (writer * string)) :
  saved_samples (l1 ++ l2) = (saved_samples l1 + saved_samples l2)%nat.
Proof. unfold saved_samples. now rewrite filter_app, length_app. Qed.

Lemma pil_save_ok (img : pil_image) path (w w' : world) u :
  pil_save img path w = Ok (u, w') ->
  w' = write_file PIL_save path (Picture img) w.
Proof.
  unfold pil_save. destruct (bool_decide _); [discriminate|].
  destruct (parent_exists w path); [|discriminate]. now intros [= _ <-].
Qed.

Lemma improve_image_ok source_image destination_image (w w' : world) :
  improve_image source_image destination_image w = Ok (tt, w') ->
  w' = w \/
  exists o, w' = write_file cv2_write destination_image (Picture o) w.
Proof.
  unfold improve_image. intros Hrun. run_inv Hrun.
  apply cv2_imread_same_disk in Hstep as ->.
  apply cv2_imwrite_ok in Hstep3 as (p & _ & [[_ ->]|[_ ->]]); [right|now left].
  now exists p.
Qed.

Lemma check_safety_same_disk switch (x_image : list ndarray) r (w w' : world) :
  check_safety switch x_image w = Ok (r, w') -> w' = w.
Proof.
  destruct switch, r as [out flags].
  - unfold check_safety. intros Hrun. run_inv Hrun.
    now apply substitution_loop in Hstep3 as (-> & _).
  - now intros [= _ _ <-].
Qed.

(** One sample: the counter moves by one, and the log gets the sample's
    [img.save] entry and after it at most the two OpenCV writes, all three
    named with the counter's old value. *)
Lemma save_sample_ok opt sample_path wm_encoder (x_sample : ndarray) b b'
    (w w' : world) :
  save_sample opt sample_path wm_encoder x_sample b w = Ok (b', w') ->
  b' = b + 1 /\
  exists later,
    written w' =
      later ++
      (PIL_save, os_path_join sample_path
                   ("original" +:+ "\" +:+ format_zero_padded 5 b +:+ ".png"))
      :: written w /\
    Forall (fun entry => entry.1 = cv2_write /\
                         backslash_name sample_path b entry.2) later.
Proof.
  unfold save_sample. intros Hrun. run_inv Hrun.
  apply pil_save_ok in Hstep1 as ->.
  repeat match goal with u : unit |- _ => destruct u end.
  split; [reflexivity|].
  assert (backslash_name sample_path b
            (os_path_join sample_path ("resized\" +:+ format_zero_padded 5 b +:+ ".png")))
    as Hresized by (exists "resized"; split; [repeat constructor|reflexivity]).
  assert (backslash_name sample_path b
            (os_path_join sample_path ("improved\" +:+ format_zero_padded 5 b +:+ ".png")))
    as Himproved by (exists "improved"; split; [repeat constructor|reflexivity]).
  apply resize_image_ok in Hstep2 as [->|(o & -> & _)];
    apply improve_image_ok in Hstep3 as [->|(o' & ->)]; cbn [written write_file].
  - exists []. split; [reflexivity|constructor].
  - eexists [_]. split; [reflexivity|]. repeat constructor. exact Himproved.
  - eexists [_]. split; [reflexivity|]. repeat constructor. exact Hresized.
  - eexists [_; _]. split; [reflexivity|]. repeat constructor; assumption.
Qed.

Lemma saved_samples_none (log : list (writer * string)) (P : string -> Prop) :
  Forall (fun entry => entry.1 = cv2_write /\ P entry.2) log ->
  saved_samples log = 0%nat.
Proof.
  unfold saved_samples. induction 1 as [|[k p] log [Hk _] _ IH]; [reflexivity|].
  simpl in Hk. subst k. rewrite filter_cons_False; [exact IH|]. discriminate.
Qed.

Lemma saved_samples_save path (log : list (writer * string)) :
  saved_samples ((PIL_save, path) :: log) = S (saved_samples log).
Proof. unfold saved_samples. now rewrite filter_cons_True. Qed.

Lemma counts_samples_start sample_path (w0 : world) b0 :
  counts_samples sample_path w0 b0 b0 w0.
Proof. exists []. split; [reflexivity|]. split; [lia|]. split; [cbn; lia|constructor]. Qed.

(** Saving a sample keeps the invariant. *)
Lemma save_sample_counts opt sample_path wm_encoder (x_sample : ndarray)
    (w0 : world) b0 b b' (w w' : world) :
  counts_samples sample_path w0 b0 b w ->
  save_sample opt sample_path wm_encoder x_sample b w = Ok (b', w') ->
  counts_samples sample_path w0 b0 b' w'.
Proof.
  intros (new & Hlog & Hle & Hcount & Hnames) Hrun.
  apply save_sample_ok in Hrun as (-> & later & Hlog' & Hlater).
  exists (later ++ (PIL_save, os_path_join sample_path
            ("original" +:+ "\" +:+ format_zero_padded 5 b +:+ ".png")) :: new).
  split; [|split; [lia|split]].
  - rewrite Hlog', Hlog, <- app_assoc. reflexivity.
  - rewrite saved_samples_app, (saved_samples_none _ _ Hlater).
    rewrite saved_samples_save. lia.
  - apply Forall_app. split; [|constructor].
    + eapply Forall_impl; [exact Hlater|].
      intros entry [_ Hname]. exists b. split; [lia|exact Hname].
    + exists b. split; [lia|]. exists "original". split; [repeat constructor|reflexivity].
    + eapply Forall_impl; [exact Hnames|].
      intros entry (n & Hn & Hname). exists n. split; [lia|exact Hname].
Qed.

(** The invariant holds after every batch of prompts, *)
Lemma process_prompts_counts opt model smp start_code sample_path wm_encoder
    prompts (w0 : world) b0 state state' (w w' : world) :
  counts_samples sample_path w0 b0 state.1 w ->
  process_prompts opt model smp start_code sample_path wm_encoder prompts state w
    = Ok (state', w') ->
  counts_samples sample_path w0 b0 state'.1 w'.
Proof.
  intros Hinv Hrun. unfold process_prompts in Hrun. run_inv Hrun.
  apply check_safety_same_disk in Hstep0 as ->. cbn [fst].
  destruct (negb (opt_skip_save opt)).
  - eapply (for_each_invariant (counts_samples sample_path w0 b0));
      [|exact Hinv|exact Hstep1].
    intros x s v s' v' _. apply save_sample_counts.
  - now run_inv Hstep1.
Qed.

(** and so after the whole loop. *)
Lemma sampling_loop_counts opt model smp start_code sample_path wm_encoder data
    b0 final (w0 w' : world) :
  sampling_loop opt model smp start_code sample_path wm_encoder data b0 w0
    = Ok (final, w') ->
  counts_samples sample_path w0 b0 final.1 w'.
Proof.
  unfold sampling_loop.
  apply (for_each_invariant
           (fun state w => counts_samples sample_path w0 b0 state.1 w)).
  - intros n state w state' v' _ Hinv.
    apply (for_each_invariant
             (fun state w => counts_samples sample_path w0 b0 state.1 w));
      [|exact Hinv].
    intros prompts s v s' v'' _. apply process_prompts_counts.
  - apply counts_samples_start.
Qed.

Lemma os_listdir_same_disk path (w w' : world) names :
  os_listdir path w = Ok (names, w') -> w' = w.
Proof.
  unfold os_listdir. destruct (bool_decide _); [now intros [= _ <-]|].
  destruct (bool_decide _); discriminate.
Qed.

(** The counter starts at the number of entries of [samples/original]. *)
Lemma output_counters_ok outpath sample_path base_count grid_count (w0 w1 : world) :
  output_counters outpath w0 = Ok ((sample_path, base_count, grid_count), w1) ->
  sample_path = os_path_join outpath "samples" /\
  exists originals,
    os_listdir (os_path_join sample_path "original") w1 = Ok (originals, w1) /\
    base_count = Z.of_nat (length originals).
Proof.
  unfold output_counters. intros Hrun. run_inv Hrun.
  pose proof (os_listdir_same_disk _ _ _ _ Hstep3) as ->.
  pose proof (os_listdir_same_disk _ _ _ _ Hstep2) as ->.
  split; [reflexivity|]. now exists a2.
Qed.

(** C5. Over a run of the saving loop: the counter [base_count] starts
    at the number of entries the folder [samples/original] has; every
    sample saved moves it up by exactly one; and when the loop is left it
    has moved by the number of samples the run saved. *)
Theorem base_count_counts_saved_samples opt model smp start_code wm_encoder data
    outpath sample_path b0 grid_count b1 all_samples (w0 w1 w2 : world) :
  output_counters outpath w0 = Ok ((sample_path, b0, grid_count), w1) ->
  sampling_loop opt model smp start_code sample_path wm_encoder data b0 w1
    = Ok ((b1, all_samples), w2) ->
  (exists originals,
     os_listdir (os_path_join (os_path_join outpath "samples") "original") w1
       = Ok (originals, w1) /\
     b0 = Z.of_nat (length originals)) /\
  (forall (x_sample : ndarray) b b' (w w' : world),
     save_sample opt sample_path wm_encoder x_sample b w = Ok (b', w') ->
     b' = b + 1 /\
     exists new, written w' = new ++ written w /\ saved_samples new = 1%nat) /\
  (exists new,
     written w2 = new ++ written w1 /\
     b1 - b0 = Z.of_nat (saved_samples new)) /\
  b0 <= b1.
Proof.
  intros Hcounters Hloop.
  apply output_counters_ok in Hcounters as (-> & originals & Hlist & ->).
  split; [now exists originals|]. split; [|split].
  - intros x_sample b b' w w' Hsave.
    apply save_sample_ok in Hsave as (-> & later & Hlog & Hlater).
    split; [reflexivity|]. eexists (later ++ [_]).
    split; [rewrite Hlog, <- app_assoc; reflexivity|].
    rewrite saved_samples_app, (saved_samples_none _ _ Hlater).
    now rewrite saved_samples_save.
  - apply sampling_loop_counts in Hloop as (new & Hlog & _ & Hcount & _).
    exists new. split; [exact Hlog|]. cbn [fst] in Hcount. lia.
  - apply sampling_loop_counts in Hloop as (new & _ & Hle & _). exact Hle.
Qed.

(** C7. Every file the saving loop writes for a sample, in each of the
    three folders, is named by the folder's name, a backslash written
    into the script, the counter padded with zeros to five digits, and
    [.png]; the path ends in that name, whatever [os.path.join] puts
    before it; and every sample saved is written under such a name. *)
Theorem sample_names_have_backslash opt model smp start_code wm_encoder data
    sample_path b0 b1 all_samples (w1 w2 : world) :
  sampling_loop opt model smp start_code sample_path wm_encoder data b0 w1
    = Ok ((b1, all_samples), w2) ->
  (exists new,
     written w2 = new ++ written w1 /\
     forall entry, entry ∈ new ->
       exists variant n pre,
         variant ∈ ["original"; "resized"; "improved"] /\
         b0 <= n < b1 /\
         entry.2 = os_path_join sample_path
                     (variant +:+ "\" +:+ format_zero_padded 5 n +:+ ".png") /\
         entry.2 = pre +:+ variant +:+ "\" +:+ format_zero_padded 5 n +:+ ".png") /\
  (forall (x_sample : ndarray) b b' (w w' : world),
     save_sample opt sample_path wm_encoder x_sample b w = Ok (b', w') ->
     (PIL_save, os_path_join sample_path
                  ("original" +:+ "\" +:+ format_zero_padded 5 b +:+ ".png"))
       ∈ written w').
Proof.
  intros Hloop. split.
  - apply sampling_loop_counts in Hloop as (new & Hlog & _ & _ & Hnames).
    exists new. split; [exact Hlog|].
    intros entry Hentry. rewrite Forall_forall in Hnames.
    destruct (Hnames entry Hentry) as (n & Hn & variant & Hvariant & Hpath).
    destruct (os_path_join_suffix sample_path
                (variant +:+ "\" +:+ format_zero_padded 5 n +:+ ".png"))
      as [pre Hpre].
    exists variant, n, pre. cbn [fst] in Hn.
    split; [exact Hvariant|]. split; [exact Hn|]. split; [exact Hpath|].
    now rewrite Hpath.
  - intros x_sample b b' w w' Hsave.
    apply save_sample_ok in Hsave as (_ & later & Hlog & _).
    rewrite Hlog. apply elem_of_app. right. left.
Qed.

End Properties.

(** ** The script run on the example libraries *)

Lemma chunk_of_five :
  chunk [1; 2; 3; 4; 5] 2 = Ok [[1; 2]; [3; 4]; [5]] /\
  chunk [1; 2; 3; 4] 2 = Ok [[1; 2]; [3; 4]] /\
  chunk (@nil Z) 2 = Ok [] /\
  chunk [1; 2] 0 = Ok [] /\
  chunk [1; 2] (-1) = Raise ValueError.
Proof. repeat split. Qed.

Lemma check_safety_enabled_witness :
  check_safety (libs := Example.libs) true Example.flagged_batch Example.with_placeholder
    = Ok ((Example.substituted_batch, PyFlags [true; false]),
          Example.with_placeholder) /\
  ((exists y, is_resized_placeholder (libs := Example.libs)
                Example.with_placeholder (Example.image 2 2 (-1)) y /\
              Example.substituted_batch !! 0%nat = Some y) \/
   ((forall y, ~ is_resized_placeholder (libs := Example.libs)
                   Example.with_placeholder (Example.image 2 2 (-1)) y) /\
    Example.substituted_batch !! 0%nat = Some (Example.image 2 2 (-1)))) /\
  Example.substituted_batch !! 1%nat = Some (Example.image 2 2 7).
Proof.
  assert (check_safety (libs := Example.libs) true Example.flagged_batch
            Example.with_placeholder
          = Ok ((Example.substituted_batch, PyFlags [true; false]),
                Example.with_placeholder)) as Hrun
    by (vm_compute; reflexivity).
  split; [exact Hrun|].
  destruct (check_safety_enabled _ _ _ _ _ Hrun)
    as (pils & clip & checked & has & _ & _ & Hchecker & _ & _ & _ & _ & Hout).
  injection Hchecker as <- <-.
  split.
  - apply (Hout 0%nat (Example.image 2 2 (-1)) eq_refl). reflexivity.
  - apply (Hout 1%nat (Example.image 2 2 7) eq_refl). reflexivity.
Defined.

(** C3 as stated fails: with no placeholder on the disk, the image the
    classifier flags stays in the batch. *)
Lemma flagged_image_kept_without_placeholder :
  check_safety (libs := Example.libs) true [Example.image 2 2 (-1)] Example.empty_world
    = Ok (([Example.image 2 2 (-1)], PyFlags [true]), Example.empty_world) /\
  ~ flagged_hold_placeholder (libs := Example.libs)
      [Example.image 2 2 (-1)] Example.empty_world.
Proof.
  split; [vm_compute; reflexivity|].
  intros Hclaim.
  destruct (Hclaim [Example.image 2 2 (-1)] (PyFlags [true]) Example.empty_world
              [ {| pil_size := (2, 2); pil_mode := "RGB"; raster := -1 |} ] tt
              [Example.image 2 2 (-1)] [true]
              ltac:(vm_compute; reflexivity) ltac:(vm_compute; reflexivity)
              eq_refl eq_refl 0%nat (Example.image 2 2 (-1)) eq_refl)
    as [Hflagged _].
  destruct (Hflagged eq_refl) as (y & (p & r & h & wd & Hfile & _) & _).
  vm_compute in Hfile. discriminate.
Qed.



Lemma base_count_counts_saved_samples_witness :
  exists b1 all_samples w2,
    output_counters "out" Example.prepared
      = Ok (("out/samples", 0, 0), Example.counted) /\
    sampling_loop (libs := Example.libs) (default_options 1) tt (DDIMSampler tt) None
      "out/samples" Example.encoder [["a"; "a"; "a"]] 0 Example.counted
      = Ok ((b1, all_samples), w2) /\
    b1 = 4 /\
    exists new, written w2 = new ++ written Example.counted /\
                b1 - 0 = Z.of_nat (saved_samples new).
Proof.
  assert (output_counters "out" Example.prepared
          = Ok (("out/samples", 0, 0), Example.counted)) as Hcounters
    by (vm_compute; reflexivity).
  eassert (sampling_loop (libs := Example.libs) (default_options 1) tt
             (DDIMSampler tt) None "out/samples" Example.encoder
             [["a"; "a"; "a"]] 0 Example.counted
           = Ok ((_, _), _)) as Hloop by (vm_compute; reflexivity).
  destruct (base_count_counts_saved_samples _ _ _ _ _ _ _ _ _ _ _ _ _ _ _
              Hcounters Hloop) as (_ & _ & Hmoved & _).
  eexists _, _, _.
  split; [exact Hcounters|]. split; [exact Hloop|].
  split; [reflexivity|]. exact Hmoved.
Defined.

Lemma sample_names_have_backslash_witness :
  exists b1 all_samples w2,
    sampling_loop (libs := Example.libs) (default_options 1) tt (DDIMSampler tt) None
      "out" Example.encoder [["a"; "a"; "a"]] 7 Example.prepared
      = Ok ((b1, all_samples), w2) /\
    (PIL_save, "out/original\00007.png") ∈ written w2 /\
    exists new,
      written w2 = new ++ written Example.prepared /\
      forall entry, entry ∈ new ->
        exists variant n pre,
          variant ∈ ["original"; "resized"; "improved"] /\
          7 <= n < b1 /\
          entry.2 = os_path_join "out"
                      (variant +:+ "\" +:+ format_zero_padded 5 n +:+ ".png") /\
          entry.2 = pre +:+ variant +:+ "\" +:+ format_zero_padded 5 n +:+ ".png".
Proof.
  eassert (sampling_loop (libs := Example.libs) (default_options 1) tt
             (DDIMSampler tt) None "out" Example.encoder [["a"; "a"; "a"]] 7
             Example.prepared
           = Ok ((_, _), _)) as Hloop by (vm_compute; reflexivity).
  destruct (sample_names_have_backslash _ _ _ _ _ _ _ _ _ _ _ _ Hloop)
    as [Hnames _].
  eexists _, _, _. split; [exact Hloop|]. split; [|exact Hnames].
  vm_compute. repeat constructor.
Defined.

Lemma prompt_assertion_witness :
  from_file_given (opt_from_file (default_options 1)) = false /\
  prompt_data (libs := Example.libs)
    (Example.options_with (parsed_prompt GivenWithoutValue) false false)
    Example.empty_world = Raise AssertionError /\
  main_after_load (libs := Example.libs)
    (Example.options_with (parsed_prompt GivenWithoutValue) false false) tt
    Example.empty_world = Raise AssertionError /\
  prompt_data (libs := Example.libs) (default_options 1) Example.empty_world
    = Ok ([[default_prompt; default_prompt; default_prompt]], Example.empty_world).
Proof.
  split; [reflexivity|].
  destruct (prompt_assertion (libs := Example.libs)
              (Example.options_with (parsed_prompt GivenWithoutValue) false false)
              tt Example.empty_world eq_refl) as [Hnull _].
  destruct (Hnull eq_refl) as [Hraise Hmain].
  destruct (prompt_assertion (libs := Example.libs) (default_options 1)
              tt Example.empty_world eq_refl) as [_ Hdefault].
  destruct (Hdefault eq_refl) as [Hdata _].
  split; [exact Hraise|]. split; [|exact Hdata].
  eapply Hmain. vm_compute. reflexivity.
Defined.

Lemma select_sampler_cases_witness :
  select_sampler (Example.options_with None true true) tt = DPMSolverSampler tt /\
  select_sampler (Example.options_with None false true) tt = PLMSSampler tt /\
  select_sampler (default_options 1) tt = DDIMSampler tt.
Proof.
  split; [|split].
  - apply (select_sampler_cases (Example.options_with None true true) tt).
    reflexivity.
  - apply (select_sampler_cases (Example.options_with None false true) tt);
      reflexivity.
  - apply (select_sampler_cases (default_options 1) tt); reflexivity.
Defined.

Lemma load_replacement_never_raises_witness :
  load_replacement_try (libs := Example.libs) (Example.image 2 2 7) Example.empty_world
    = Raise FileNotFoundError /\
  load_replacement (libs := Example.libs) (Example.image 2 2 7) Example.empty_world
    = Ok (Example.image 2 2 7, Example.empty_world).
Proof.
  split; [reflexivity|].
  apply (load_replacement_never_raises (libs := Example.libs)
           (Example.image 2 2 7) Example.empty_world) with (e := FileNotFoundError).
  reflexivity.
Defined.

(** The names and paths of the saving loop, computed. *)
Lemma names_computed :
  format_zero_padded 5 3 = "00003" /\
  format_zero_padded 5 123456 = "123456" /\
  format_zero_padded 4 0 = "0000" /\
  os_path_join "outputs/txt2img-samples" "samples" = "outputs/txt2img-samples/samples" /\
  os_path_join "out/samples" ("original\" +:+ format_zero_padded 5 3 +:+ ".png")
    = "out/samples/original\00003.png" /\
  dirname "out/samples/original\00003.png" = "out/samples" /\
  with_parents "out/samples/original"
    = ["out"; "out/samples"; "out/samples/original"].
Proof. repeat split. Qed.

(** A whole run with the default options on an empty disk: two rounds of
    two images each are saved, then the grid. *)
Lemma main_on_empty_disk :
  exists w,
    main_after_load (libs := Example.libs) (default_options 1) tt Example.empty_world
      = Ok ((4, 1), w) /\
    length (written w) = 13%nat /\
    head (written w) = Some (PIL_save, "outputs/txt2img-samples/grid-0000.png") /\
    last (written w)
      = Some (PIL_save, "outputs/txt2img-samples/samples/original\00000.png").
Proof. eexists. repeat split; vm_compute; reflexivity. Qed.

(** * Further properties of the script *)

#[local] Set Warnings "-clear-no-such-hyp".

(** ** [chunk]: which items a batch holds, and the sizes below one *)

Section ChunkSlices.
Context {A : Type}.
Implicit Types (it : list A) (size : nat).

Lemma chunk_from_lookup size : forall i it b,
  (0 < size)%nat ->
  chunk_from size it !! i = Some b ->
  b = take size (drop (i * size) it) /\ (i * size < length it)%nat.
Proof.
  induction i as [|i IH]; intros it b Hs Hi.
  - destruct it as [|x it]; [now rewrite chunk_from_nil in Hi|].
    rewrite chunk_from_cons in Hi by (assumption || discriminate).
    injection Hi as <-. split; [reflexivity|simpl; lia].
  - destruct it as [|x it]; [now rewrite chunk_from_nil in Hi|].
    rewrite chunk_from_cons in Hi by (assumption || discriminate).
    cbn [lookup list_lookup] in Hi.
    apply IH in Hi as [-> Hlt]; [|assumption].
    rewrite length_drop in Hlt. rewrite drop_drop.
    split; [f_equal; f_equal; lia|lia].
Qed.

Lemma chunk_from_zero it : chunk_from 0 it = [].
Proof. rewrite chunk_from_step. now rewrite take_0. Qed.

End ChunkSlices.

(** X1. For a batch size B >= 1, batch number [i] of [chunk] (from 0) is the
    items [i*B .. i*B + B - 1] of the input, as far as they exist, and it
    starts inside the input. *)
Theorem chunk_batch_is_slice {A} (it : list A) (B : Z) batches (i : nat) b :
  1 <= B ->
  chunk it B = Ok batches ->
  batches !! i = Some b ->
  b = take (Z.to_nat B) (drop (i * Z.to_nat B) it) /\
  Z.of_nat i * B < Z.of_nat (length it).
Proof.
  intros HB Hchunk Hi. unfold chunk in Hchunk.
  destruct (Z.ltb_spec B 0); [lia|]. injection Hchunk as <-.
  apply chunk_from_lookup in Hi as [-> Hlt]; [|lia].
  split; [reflexivity|]. nia.
Qed.

Lemma chunk_batch_is_slice_witness :
  1 <= 2 /\
  chunk [10; 20; 30; 40; 50] 2 = Ok [[10; 20]; [30; 40]; [50]] /\
  [50] = take (Z.to_nat 2) (drop (2 * Z.to_nat 2) [10; 20; 30; 40; 50]) /\
  Z.of_nat 2 * 2 < Z.of_nat (length [10; 20; 30; 40; 50]).
Proof.
  split; [lia|]. split; [reflexivity|].
  apply (chunk_batch_is_slice [10; 20; 30; 40; 50] 2 [[10; 20]; [30; 40]; [50]]
           2%nat [50]); [lia|reflexivity|reflexivity].
Defined.

(** X2. A batch size of zero gives no batch at all, whatever the input, and a
    negative one makes [islice] raise [ValueError], also on an empty
    input. *)
Theorem chunk_size_below_one {A} (it : list A) :
  chunk it 0 = Ok [] /\
  forall B, B < 0 -> chunk it B = Raise ValueError.
Proof.
  split.
  - unfold chunk. cbn. now rewrite chunk_from_zero.
  - intros B HB. unfold chunk. now destruct (Z.ltb_spec B 0); [|lia].
Qed.

(** ** The safety filter *)

Section SafetyFilter.
Context {pixels model_t tensor : Type} {libs : Libraries pixels model_t tensor}.
Local Abbreviation ndarray := (ndarray pixels).
Local Abbreviation pil_image := (pil_image pixels).
Local Abbreviation world := (world pixels).

Lemma numpy_to_pil_batch_ok (images : list ndarray) (pils : list pil_image) :
  numpy_to_pil (ImageBatch images) = Ok pils <->
  Forall2 (fun x p => Image_fromarray (round_uint8 x) = Ok p) images pils.
Proof.
  unfold numpy_to_pil. revert pils.
  induction images as [|x images IH]; intros pils; cbn.
  - split; [intros [= <-]; constructor|]. intros Hall. now inversion Hall.
  - unfold result_bind at 1.
    destruct (Image_fromarray (round_uint8 x)) as [p|e] eqn:Hx.
    + unfold result_bind at 1.
      destruct (foldr _ _ _) as [rest|e] eqn:Hrest.
      * split.
        -- intros [= <-]. constructor; [assumption|]. now apply IH.
        -- intros Hall. inversion Hall as [|? q ? rest' Hq Hrest']; subst.
           apply IH in Hrest'. congruence.
      * split; [discriminate|]. intros Hall.
        inversion Hall as [|? q ? rest' Hq Hrest']; subst.
        apply IH in Hrest'. congruence.
    + split; [discriminate|]. intros Hall.
      inversion Hall as [|? q ? rest' Hq Hrest']; subst. congruence.
Qed.

(** X3. [numpy_to_pil] returns exactly when every image converts, with the
    converted images in the order of the batch; one image alone is taken
    as the batch of that image; and the first image that does not convert
    decides the exception. *)
Theorem numpy_to_pil_items (images : list ndarray) :
  (forall pils,
     numpy_to_pil (ImageBatch images) = Ok pils <->
     Forall2 (fun x p => Image_fromarray (round_uint8 x) = Ok p) images pils) /\
  (forall x, numpy_to_pil (OneImage x) = numpy_to_pil (ImageBatch [x])) /\
  (forall before x after pils e,
     images = before ++ x :: after ->
     Forall2 (fun x p => Image_fromarray (round_uint8 x) = Ok p) before pils ->
     Image_fromarray (round_uint8 x) = Raise e ->
     numpy_to_pil (ImageBatch images) = Raise e).
Proof.
  split; [|split].
  - intros pils. apply numpy_to_pil_batch_ok.
  - reflexivity.
  - intros before x after pils e -> Hbefore Hx. unfold numpy_to_pil.
    induction Hbefore as [|y p before pils Hy _ IH]; cbn.
    + now rewrite Hx.
    + rewrite Hy. cbn. cbn in IH. now rewrite IH.
Qed.

Lemma load_replacement_result (x y : ndarray) (w w' : world) :
  load_replacement x w = Ok (y, w') ->
  shape y = shape x /\ dtype y = dtype x.
Proof.
  intros Hrun.
  destruct (load_replacement_cases x w) as [(y' & Hpl & Hy')|(_ & _ & Hy')];
    rewrite Hy' in Hrun; injection Hrun as <- <-; [|now split].
  destruct Hpl as (p & r & h & wd & _ & _ & _ & _ & _ & -> & Hshape). now split.
Qed.

(** X4. [load_replacement] returns an array of the shape and element type of
    the one it was given, the placeholder or not, so the assignment into
    the batch in [check_safety] always fits. *)
Theorem load_replacement_keeps_shape (x y : ndarray) (w w' : world) :
  load_replacement x w = Ok (y, w') ->
  shape y = shape x /\ dtype y = dtype x /\ w' = w.
Proof.
  intros Hrun.
  destruct (load_replacement_cases x w) as [(y' & Hpl & Hy')|(_ & _ & Hy')];
    rewrite Hy' in Hrun; injection Hrun as <- <-.
  - destruct Hpl as (p & r & h & wd & _ & _ & _ & _ & _ & -> & Hshape).
    now repeat split.
  - now repeat split.
Qed.

(** The loop over the flags always runs to its end when the batch is as
    long as the list of flags. *)
Lemma substitution_loop_returns has m : forall k (s : list ndarray) (w : world),
  (k + m <= length s)%nat ->
  exists out, for_each (seq k m) (substitute_flagged has) s w = Ok (out, w).
Proof.
  induction m as [|m IH]; intros k s w Hlen.
  - now exists s.
  - cbn [seq for_each]. unfold bind.
    assert (exists s1, substitute_flagged has k s w = Ok (s1, w) /\
                       length s1 = length s) as (s1 & -> & Hlen1).
    { unfold substitute_flagged.
      destruct (has !! k) as [[|]|]; try (now exists s).
      destruct (lookup_lt_is_Some_2 s k ltac:(lia)) as [x ->].
      unfold bind.
      destruct (load_replacement_cases x w) as [(y & _ & ->)|(_ & _ & ->)];
        eexists; (split; [reflexivity|apply length_insert]). }
    apply IH. lia.
Qed.

(** X5. With the switch on, [check_safety] returns whenever the images
    convert, the feature extractor and the classifier return, and the
    classifier gives one flag per image: no placeholder problem can make
    it raise. If the numbers differ, the assertion fails. *)
Theorem check_safety_returns (x_image : list ndarray) (w : world)
    pils clip_input checked has_nsfw_concept :
  numpy_to_pil (ImageBatch x_image) = Ok pils ->
  safety_feature_extractor pils = Ok clip_input ->
  safety_checker x_image clip_input = Ok (checked, has_nsfw_concept) ->
  (length checked = length has_nsfw_concept ->
     exists out, check_safety true x_image w
                 = Ok ((out, PyFlags has_nsfw_concept), w)) /\
  (length checked <> length has_nsfw_concept ->
     check_safety true x_image w = Raise AssertionError).
Proof.
  intros Hpils Hclip Hchecker.
  unfold check_safety, bind, lift. rewrite Hpils, Hclip, Hchecker. cbn [fst snd].
  split; intros Hlen.
  - rewrite bool_decide_eq_true_2 by assumption. cbn.
    destruct (substitution_loop_returns has_nsfw_concept (length has_nsfw_concept)
                0 checked w ltac:(lia)) as [out ->].
    now exists out.
  - now rewrite bool_decide_eq_false_2 by assumption.
Qed.

(** X6. What [check_safety] returns with the switch on has, index by index,
    the shape and element type of what the classifier returned; and when
    the classifier flags nothing it is the classifier's batch itself. *)
Theorem check_safety_keeps_shapes (x_image out : list ndarray) flags (w w' : world)
    pils clip_input checked has_nsfw_concept :
  check_safety true x_image w = Ok ((out, flags), w') ->
  numpy_to_pil (ImageBatch x_image) = Ok pils ->
  safety_feature_extractor pils = Ok clip_input ->
  safety_checker x_image clip_input = Ok (checked, has_nsfw_concept) ->
  Forall2 (fun x y => shape y = shape x /\ dtype y = dtype x) checked out /\
  (Forall (fun flag => flag = false) has_nsfw_concept -> out = checked).
Proof.
  intros Hrun Hpils Hclip Hchecker.
  unfold check_safety in Hrun. run_inv Hrun.
  rewrite Hpils in Hstep. injection Hstep as <-.
  rewrite Hclip in Hstep0. injection Hstep0 as <-.
  rewrite Hchecker in Hstep1. injection Hstep1 as <-. cbn [fst snd] in *.
  apply bool_decide_eq_true in Hstep2.
  apply substitution_loop in Hstep3 as (-> & Hlen & Hout).
  split.
  - apply Forall2_same_length_lookup. split; [congruence|].
    intros i x y Hx Hy. destruct (Hout i x Hx) as [Hin Hother].
    destruct (has_nsfw_concept !! i) as [[|]|] eqn:Hflag.
    + destruct Hin as (y' & Hy' & Hiy'); [|reflexivity|].
      { apply lookup_lt_Some in Hflag. lia. }
      assert (y' = y) as -> by congruence.
      now apply load_replacement_result in Hy'.
    + assert (y = x) as -> by (rewrite Hother in Hy by (right; right; congruence);
                               congruence).
      now split.
    + assert (y = x) as -> by (rewrite Hother in Hy by (right; right; congruence);
                               congruence).
      now split.
  - intros Hnone. apply list_eq_same_length with (length checked); [reflexivity|assumption|].
    intros i y x _ Hy Hx. destruct (Hout i x Hx) as [_ Hother].
    rewrite Hother in Hy; [congruence|]. right. right.
    intros Hflag. rewrite Forall_forall in Hnone.
    specialize (Hnone true (list_elem_of_lookup_2 _ _ _ Hflag)). discriminate.
Qed.

End SafetyFilter.

(** ** Resizing and improving a file *)

Section ResizeImprove.
Context {pixels model_t tensor : Type} {libs : Libraries pixels model_t tensor}.
Local Abbreviation ndarray := (ndarray pixels).
Local Abbreviation pil_image := (pil_image pixels).
Local Abbreviation world := (world pixels).

Lemma cv2_imread_cases path (w : world) :
  (exists s, files w !! path = Some (Picture s) /\
             cv2_imread path w =
               Ok (Some {| shape := [(pil_size s).2; (pil_size s).1; 3];
                           dtype := uint8; buffer := bgr_decode s |}, w)) \/
  ((forall s, files w !! path <> Some (Picture s)) /\
   cv2_imread path w = Ok (None, w)).
Proof.
  unfold cv2_imread. destruct (files w !! path) as [[s|t]|].
  - left. now exists s.
  - right. split; [discriminate|reflexivity].
  - right. split; [discriminate|reflexivity].
Qed.

Lemma cv2_resize_not_positive (src : option ndarray) dsize :
  dsize.1 <= 0 \/ dsize.2 <= 0 -> cv2_resize src dsize = Raise cv2_error.
Proof.
  intros Hneg. unfold cv2_resize, cv2_image, result_bind.
  destruct src as [a|]; [|reflexivity].
  destruct (shape a) as [|h [|wd channels]]; try reflexivity.
  destruct (Z.ltb_spec 0 dsize.1), (Z.ltb_spec 0 dsize.2);
    try lia; now rewrite ?andb_false_r.
Qed.

Lemma write_file_frame by_whom path content (w : world) :
  dirs (write_file by_whom path content w) = dirs w /\
  forall p, p <> path ->
            files (write_file by_whom path content w) !! p = files w !! p.
Proof.
  split; [reflexivity|]. intros p Hp. cbn. now apply lookup_insert_ne.
Qed.

Lemma cv2_imwrite_frame path (img : ndarray) (w w' : world) done :
  cv2_imwrite path img w = Ok (done, w') ->
  dirs w' = dirs w /\
  (forall p, p <> path -> files w' !! p = files w !! p) /\
  (parent_exists w path = false -> done = false /\ w' = w).
Proof.
  unfold cv2_imwrite. destruct (encoded_picture img) as [p|]; [|discriminate].
  destruct (negb _ && parent_exists w path) eqn:Hcan; intros [= <- <-].
  - split; [reflexivity|]. split.
    + intros q Hq. cbn. now apply lookup_insert_ne.
    + intros Hparent. rewrite Hparent, andb_false_r in Hcan. discriminate.
  - now repeat split.
Qed.

(** X7. [resize_image] raises [cv2.error] when the source file is missing or
    is no picture, since [cv2.imread] then gives [None], and when a scaled
    width or height is not positive, as with a resize factor of zero;
    nothing is written then. *)
Theorem resize_image_raises (source_image destination_image : string)
    (width height resize_factor : Z) (w : world) :
  (forall s, files w !! source_image <> Some (Picture s)) \/
  width * resize_factor <= 0 \/ height * resize_factor <= 0 ->
  resize_image source_image destination_image width height resize_factor w
    = Raise cv2_error.
Proof.
  intros Hbad. unfold resize_image, bind.
  destruct (cv2_imread_cases source_image w) as [(s & Hs & ->)|[Hnone ->]].
  - destruct Hbad as [Hno|Hneg]; [now destruct (Hno s)|].
    unfold lift. now rewrite cv2_resize_not_positive.
  - reflexivity.
Qed.


(** X9. [improve_image] raises [cv2.error] when its source cannot be read,
    before any filter runs; and when it returns, no file but the
    destination has changed. *)
Theorem improve_image_source_and_frame (source_image destination_image : string)
    (w : world) :
  ((forall s, files w !! source_image <> Some (Picture s)) ->
     improve_image source_image destination_image w = Raise cv2_error) /\
  (forall w',
     improve_image source_image destination_image w = Ok (tt, w') ->
     dirs w' = dirs w /\
     (forall p, p <> destination_image -> files w' !! p = files w !! p) /\
     exists s, files w !! source_image = Some (Picture s)).
Proof.
  split.
  - intros Hno. unfold improve_image, bind.
    destruct (cv2_imread_cases source_image w) as [(s & Hs & _)|[_ ->]];
      [now destruct (Hno s)|reflexivity].
  - intros w' Hrun. unfold improve_image in Hrun.
    apply bind_ok in Hrun as (src & w1 & Hread & Hrun).
    destruct (cv2_imread_cases source_image w) as [(s & Hs & Hok)|[_ Hnone]];
      rewrite Hread in *.
    + injection Hok as -> ->. run_inv Hrun.
      apply cv2_imwrite_frame in Hstep2 as (Hdirs & Hfiles & _).
      split; [exact Hdirs|]. split; [exact Hfiles|]. now exists s.
    + injection Hnone as -> ->. unfold bind, lift in Hrun. discriminate.
Qed.

End ResizeImprove.

(** ** The names of the files *)

Section Names.

Lemma list_ascii_of_string_app (a b : string) :
  String.list_ascii_of_string (a +:+ b)
  = String.list_ascii_of_string a ++ String.list_ascii_of_string b.
Proof.
  induction a as [|c a IH]; [reflexivity|].
  change (c :: String.list_ascii_of_string (a +:+ b)
          = c :: (String.list_ascii_of_string a ++ String.list_ascii_of_string b)).
  now rewrite IH.
Qed.

Lemma list_ascii_of_string_inj (a b : string) :
  String.list_ascii_of_string a = String.list_ascii_of_string b -> a = b.
Proof.
  intros H. rewrite <- (String.string_of_list_ascii_of_string a),
    <- (String.string_of_list_ascii_of_string b). now rewrite H.
Qed.

Lemma string_app_inv_tail (a b t : string) : a +:+ t = b +:+ t -> a = b.
Proof.
  intros H. apply list_ascii_of_string_inj.
  apply (f_equal String.list_ascii_of_string) in H.
  rewrite !list_ascii_of_string_app in H. now apply app_inv_tail in H.
Qed.

Lemma string_app_inv_head (a s t : string) : a +:+ s = a +:+ t -> s = t.
Proof.
  intros H. apply list_ascii_of_string_inj.
  apply (f_equal String.list_ascii_of_string) in H.
  rewrite !list_ascii_of_string_app in H. now apply app_inv_head in H.
Qed.

Lemma string_length_app (a b : string) :
  String.length (a +:+ b) = (String.length a + String.length b)%nat.
Proof.
  induction a as [|c a IH]; [reflexivity|].
  change (S (String.length (a +:+ b)) = S (String.length a + String.length b)).
  now rewrite IH.
Qed.

Lemma zeros_length k :
  String.length (String.string_of_list_ascii (replicate k "0"%char)) = k.
Proof. induction k as [|k IH]; [reflexivity|]. cbn. now rewrite IH. Qed.

Lemma zfill_length width s :
  String.length (zfill width s) = Nat.max width (String.length s).
Proof. unfold zfill. rewrite string_length_app, zeros_length. lia. Qed.

Lemma zfill_digits width s d :
  NilEmpty.uint_of_string s = Some d ->
  option_map N.of_uint (NilEmpty.uint_of_string (zfill width s))
  = Some (N.of_uint d).
Proof.
  intros Hs. unfold zfill.
  induction (width - String.length s)%nat as [|k IH].
  { change (String.string_of_list_ascii (replicate 0 "0"%char) +:+ s) with s.
    now rewrite Hs. }
  change (String.string_of_list_ascii (replicate (S k) "0"%char) +:+ s)
    with (String "0" (String.string_of_list_ascii (replicate k "0"%char) +:+ s)).
  cbn [NilEmpty.uint_of_string].
  destruct (NilEmpty.uint_of_string (_ +:+ s)) as [d'|]; [|discriminate].
  injection IH as IH. cbn. f_equal. exact IH.
Qed.

Lemma counter_of_digits_format width n :
  0 <= n -> counter_of_digits (format_zero_padded width n) = Some (Z.to_N n).
Proof.
  intros Hn. unfold counter_of_digits, format_zero_padded.
  destruct (Z.ltb_spec n 0); [lia|].
  change (N.of_uint <$> ?o) with (option_map N.of_uint o).
  rewrite (zfill_digits width _ (N.to_uint (Z.abs_N n))) by apply NilEmpty.usu.
  rewrite DecimalN.Unsigned.of_to. f_equal. lia.
Qed.

Lemma format_zero_padded_inj width m n :
  0 <= m -> 0 <= n ->
  format_zero_padded width m = format_zero_padded width n -> m = n.
Proof.
  intros Hm Hn Heq.
  pose proof (counter_of_digits_format width m Hm) as Hread.
  rewrite Heq, counter_of_digits_format in Hread by assumption.
  injection Hread as Hread. lia.
Qed.

(** X10. A counter that is not negative can be read back from its zero-padded
    name, which has at least the width asked for; so different counters
    give different names (a negative one gets a minus sign first). *)
Theorem format_zero_padded_reads_back (width : nat) (n : Z) :
  0 <= n ->
  counter_of_digits (format_zero_padded width n) = Some (Z.to_N n) /\
  (width <= String.length (format_zero_padded width n))%nat /\
  forall m, 0 <= m ->
            format_zero_padded width m = format_zero_padded width n -> m = n.
Proof.
  intros Hn. split; [now apply counter_of_digits_format|]. split.
  - unfold format_zero_padded. destruct (Z.ltb_spec n 0); [lia|].
    rewrite zfill_length. lia.
  - intros m Hm Heq. now apply (format_zero_padded_inj width).
Qed.

Lemma format_zero_padded_reads_back_witness :
  0 <= 42 /\
  format_zero_padded 5 42 = "00042" /\
  counter_of_digits "00042" = Some 42%N /\
  (5 <= String.length (format_zero_padded 5 42))%nat.
Proof.
  split; [lia|]. split; [reflexivity|].
  destruct (format_zero_padded_reads_back 5 42 ltac:(lia)) as (Hread & Hlen & _).
  split; [exact Hread|exact Hlen].
Defined.

Lemma os_path_join_relative (a b1 b2 : string) :
  String.prefix "/" b1 = false -> String.prefix "/" b2 = false ->
  os_path_join a b1 = os_path_join a b2 -> b1 = b2.
Proof.
  unfold os_path_join. intros -> ->.
  destruct (_ || _); intros H; [now apply string_app_inv_head in H|].
  apply string_app_inv_head in H. now apply string_app_inv_head in H.
Qed.

Lemma variant_name_relative variant rest :
  variant ∈ variants -> String.prefix "/" (variant +:+ rest) = false.
Proof.
  unfold variants. intros Hv.
  repeat (apply elem_of_cons in Hv as [->|Hv]; [reflexivity|]).
  now apply elem_of_nil in Hv.
Qed.

(** X11. Under one sample folder, two sample files have the same path only
    when they are in the same variant folder and carry the same counter:
    no sample is written over another one of the run. *)
Theorem sample_paths_distinct (sample_path : string) variant variant' (m n : Z) :
  variant ∈ variants -> variant' ∈ variants -> 0 <= m -> 0 <= n ->
  os_path_join sample_path
    (variant +:+ "\" +:+ format_zero_padded 5 m +:+ ".png")
  = os_path_join sample_path
      (variant' +:+ "\" +:+ format_zero_padded 5 n +:+ ".png") ->
  variant = variant' /\ m = n.
Proof.
  intros Hv Hv' Hm Hn Hpath.
  apply os_path_join_relative in Hpath; try now apply variant_name_relative.
  assert (variant = variant') as <-.
  { unfold variants in Hv, Hv'.
    repeat (apply elem_of_cons in Hv as [->|Hv]);
      repeat (apply elem_of_cons in Hv' as [->|Hv']);
      try reflexivity; try discriminate;
      try (now apply elem_of_nil in Hv); try (now apply elem_of_nil in Hv'). }
  split; [reflexivity|].
  apply string_app_inv_head in Hpath. apply string_app_inv_head in Hpath.
  apply string_app_inv_tail in Hpath.
  now apply (format_zero_padded_inj 5).
Qed.

Lemma original_name_inj (sample_path : string) (m n : Z) :
  0 <= m -> 0 <= n ->
  original_name sample_path m = original_name sample_path n -> m = n.
Proof.
  intros Hm Hn Hpath. unfold original_name in Hpath.
  apply os_path_join_relative in Hpath; [|reflexivity..].
  apply string_app_inv_head in Hpath. apply string_app_inv_head in Hpath.
  apply string_app_inv_tail in Hpath.
  now apply (format_zero_padded_inj 5).
Qed.

End Names.

(** ** The saving loop: names in order, frame, and what is collected *)

Section SavingLoop.
Context {pixels model_t tensor : Type} {libs : Libraries pixels model_t tensor}.
Local Abbreviation ndarray := (ndarray pixels).
Local Abbreviation pil_image := (pil_image pixels).
Local Abbreviation world := (world pixels).

(** What one sample does to the log, the folders and the files. *)
Lemma save_sample_effect opt sample_path wm_encoder (x_sample : ndarray) b b'
    (w w' : world) :
  save_sample opt sample_path wm_encoder x_sample b w = Ok (b', w') ->
  b' = b + 1 /\
  exists later,
    written w' = later ++ (PIL_save, original_name sample_path b) :: written w /\
    Forall (fun entry => entry.1 = cv2_write /\
                         backslash_name sample_path b entry.2) later /\
    dirs w' = dirs w /\
    (forall p, p ∉ (later ++ [(PIL_save, original_name sample_path b)]).*2 ->
               files w' !! p = files w !! p) /\
    (forall p, is_Some (files w !! p) \/
               p ∈ (later ++ [(PIL_save, original_name sample_path b)]).*2 ->
               is_Some (files w' !! p)).
Proof.
  unfold save_sample. intros Hrun. run_inv Hrun.
  apply pil_save_ok in Hstep1 as ->.
  repeat match goal with u : unit |- _ => destruct u end.
  split; [reflexivity|].
  assert (backslash_name sample_path b
            (os_path_join sample_path ("resized\" +:+ format_zero_padded 5 b +:+ ".png")))
    as Hresized by (exists "resized"; split; [repeat constructor|reflexivity]).
  assert (backslash_name sample_path b
            (os_path_join sample_path ("improved\" +:+ format_zero_padded 5 b +:+ ".png")))
    as Himproved by (exists "improved"; split; [repeat constructor|reflexivity]).
  apply resize_image_ok in Hstep2 as [->|(o & -> & _)];
    apply improve_image_ok in Hstep3 as [->|(o' & ->)]; cbn [written write_file].
  - exists []. split; [reflexivity|]. split; [constructor|]. split; [reflexivity|].
    split; intros p Hp; cbn in *.
    + apply lookup_insert_ne. intros <-. apply Hp. left.
    + rewrite !lookup_insert_is_Some'. rewrite ?elem_of_cons, ?elem_of_nil in Hp.
      intuition (subst; auto).
  - eexists [_]. split; [reflexivity|]. split; [repeat constructor; exact Himproved|].
    split; [reflexivity|]. split; intros p Hp; cbn in *.
    + rewrite !lookup_insert_ne; [reflexivity|..]; intros <-; apply Hp;
        repeat first [left|right].
    + rewrite !lookup_insert_is_Some'. rewrite ?elem_of_cons, ?elem_of_nil in Hp.
      intuition (subst; auto).
  - eexists [_]. split; [reflexivity|]. split; [repeat constructor; exact Hresized|].
    split; [reflexivity|]. split; intros p Hp; cbn in *.
    + rewrite !lookup_insert_ne; [reflexivity|..]; intros <-; apply Hp;
        repeat first [left|right].
    + rewrite !lookup_insert_is_Some'. rewrite ?elem_of_cons, ?elem_of_nil in Hp.
      intuition (subst; auto).
  - eexists [_; _]. split; [reflexivity|].
    split; [repeat constructor; assumption|].
    split; [reflexivity|]. split; intros p Hp; cbn in *.
    + rewrite !lookup_insert_ne; [reflexivity|..]; intros <-; apply Hp;
        repeat first [left|right].
    + rewrite !lookup_insert_is_Some'. rewrite ?elem_of_cons, ?elem_of_nil in Hp.
      intuition (subst; auto).
Qed.

Lemma saved_paths_later later path (new : list (writer * string)) (P : string -> Prop) :
  Forall (fun entry => entry.1 = cv2_write /\ P entry.2) later ->
  saved_paths (later ++ (PIL_save, path) :: new) = path :: saved_paths new.
Proof.
  unfold saved_paths. intros Hlater. rewrite filter_app.
  assert (filter (fun entry : writer * string => entry.1 = PIL_save) later = [])
    as ->.
  { induction Hlater as [|[k p] later [Hk _] _ IH]; [reflexivity|].
    simpl in Hk. subst k. rewrite filter_cons_False; [exact IH|]. discriminate. }
  now rewrite filter_cons_True.
Qed.

Lemma saves_in_order_start sample_path (w0 : world) b0 :
  saves_in_order sample_path w0 b0 b0 w0.
Proof.
  exists []. split; [reflexivity|]. split; [lia|].
  split; [now rewrite Z.sub_diag|]. split; [constructor|]. split; [reflexivity|].
  split; [reflexivity|]. intros p Hp. now apply elem_of_nil in Hp.
Qed.

Lemma save_sample_in_order opt sample_path wm_encoder (x_sample : ndarray)
    (w0 : world) b0 b b' (w w' : world) :
  saves_in_order sample_path w0 b0 b w ->
  save_sample opt sample_path wm_encoder x_sample b w = Ok (b', w') ->
  saves_in_order sample_path w0 b0 b' w'.
Proof.
  intros (new & Hlog & Hle & Hsaved & Hnames & Hdirs & Hfiles & Hheld) Hrun.
  apply save_sample_effect in Hrun
    as (-> & later & Hlog' & Hlater & Hdirs' & Hfiles' & Hheld').
  exists (later ++ (PIL_save, original_name sample_path b) :: new).
  split; [|split; [lia|split; [|split; [|split; [|split]]]]].
  - rewrite Hlog', Hlog, <- app_assoc. reflexivity.
  - rewrite (saved_paths_later _ _ _ _ Hlater), Hsaved.
    replace (b + 1 - b0) with ((b - b0) + 1) by lia.
    rewrite seqZ_app by lia. rewrite fmap_app, reverse_app.
    replace (b0 + (b - b0)) with b by lia. reflexivity.
  - apply Forall_app. split; [|constructor].
    + eapply Forall_impl; [exact Hlater|].
      intros entry [_ Hname]. exists b. split; [lia|exact Hname].
    + exists b. split; [lia|]. exists "original". split; [repeat constructor|reflexivity].
    + eapply Forall_impl; [exact Hnames|].
      intros entry (n & Hn & Hname). exists n. split; [lia|exact Hname].
  - congruence.
  - intros p Hp. rewrite fmap_app, fmap_cons in Hp.
    apply not_elem_of_app in Hp as [Hlater_p Hp].
    apply not_elem_of_cons in Hp as [Hname Hnew].
    rewrite Hfiles'; [now apply Hfiles|].
    rewrite fmap_app. apply not_elem_of_app. split; [assumption|].
    cbn. apply not_elem_of_cons. split; [assumption|apply not_elem_of_nil].
  - intros p Hp. rewrite fmap_app, fmap_cons in Hp. apply Hheld'.
    apply elem_of_app in Hp as [Hp|Hp].
    + right. rewrite fmap_app. apply elem_of_app. now left.
    + apply elem_of_cons in Hp as [->|Hp].
      * right. rewrite fmap_app. apply elem_of_app. right. cbn. left.
      * left. now apply Hheld.
Qed.

(** A property of the counter and the disk that saving a sample keeps
    holds after the saving loop. *)
Lemma sampling_loop_invariant (Inv : Z -> world -> Prop)
    opt model smp start_code sample_path wm_encoder data b0 final (w0 w' : world) :
  (forall x_sample b b' w w',
     Inv b w -> save_sample opt sample_path wm_encoder x_sample b w = Ok (b', w') ->
     Inv b' w') ->
  Inv b0 w0 ->
  sampling_loop opt model smp start_code sample_path wm_encoder data b0 w0
    = Ok (final, w') ->
  Inv final.1 w'.
Proof.
  intros Hsave Hstart. unfold sampling_loop.
  apply (for_each_invariant (fun state w => Inv state.1 w)); [|exact Hstart].
  intros n state w state' v' _ Hinv.
  apply (for_each_invariant (fun state w => Inv state.1 w)); [|exact Hinv].
  intros prompts s v s' v'' _ Hs Hrun.
  unfold process_prompts in Hrun. run_inv Hrun.
  apply check_safety_same_disk in Hstep0 as ->. cbn [fst].
  destruct (negb (opt_skip_save opt)).
  - eapply (for_each_invariant Inv); [|exact Hs|exact Hstep1].
    intros x t u t' u' _. apply Hsave.
  - now run_inv Hstep1.
Qed.

(** X12. The samples a run of the saving loop saves are the originals numbered
    from the first counter on, one after the other, in that order, up to
    the final counter; when the first counter is not negative their paths
    are all different, so no sample of the run is saved over another. *)
Theorem saved_names_in_order opt model smp start_code wm_encoder data
    sample_path b0 b1 all_samples (w1 w2 : world) :
  sampling_loop opt model smp start_code sample_path wm_encoder data b0 w1
    = Ok ((b1, all_samples), w2) ->
  0 <= b0 ->
  exists new,
    written w2 = new ++ written w1 /\
    saved_paths new = reverse (original_name sample_path <$> seqZ b0 (b1 - b0)) /\
    NoDup (saved_paths new).
Proof.
  intros Hloop Hb0.
  apply (sampling_loop_invariant (saves_in_order sample_path w1 b0)) in Hloop;
    [|intros; eapply save_sample_in_order; eassumption|apply saves_in_order_start].
  destruct Hloop as (new & Hlog & Hle & Hsaved & _).
  exists new. split; [exact Hlog|]. split; [exact Hsaved|].
  rewrite Hsaved, reverse_Permutation.
  apply NoDup_fmap_2_strong; [|apply NoDup_seqZ].
  intros m n Hm Hn Heq. apply elem_of_seqZ in Hm, Hn.
  apply original_name_inj in Heq; [assumption|lia|lia].
Qed.

End SavingLoop.

Section SavingLoopMore.
Context {pixels model_t tensor : Type} {libs : Libraries pixels model_t tensor}.
Local Abbreviation ndarray := (ndarray pixels).
Local Abbreviation world := (world pixels).


(** X13. The saving loop makes no folder, removes no file, and leaves every
    path that is not in its log of writes holding what it held. *)
Theorem sampling_loop_frame opt model smp start_code wm_encoder data
    sample_path b0 b1 all_samples (w1 w2 : world) :
  sampling_loop opt model smp start_code sample_path wm_encoder data b0 w1
    = Ok ((b1, all_samples), w2) ->
  exists new,
    written w2 = new ++ written w1 /\
    dirs w2 = dirs w1 /\
    (forall p, p ∉ new.*2 -> files w2 !! p = files w1 !! p) /\
    (forall p, is_Some (files w1 !! p) -> is_Some (files w2 !! p)).
Proof.
  intros Hloop.
  apply (sampling_loop_invariant (saves_in_order sample_path w1 b0)) in Hloop;
    [|intros; eapply save_sample_in_order; eassumption|apply saves_in_order_start].
  destruct Hloop as (new & Hlog & _ & _ & _ & Hdirs & Hfiles & Hheld).
  exists new. split; [exact Hlog|]. split; [exact Hdirs|]. split; [exact Hfiles|].
  intros p Hp. destruct (decide (p ∈ new.*2)) as [Hin|Hout].
  - now apply Hheld.
  - now rewrite (Hfiles p Hout).
Qed.

(** Each round of a loop adds [c] to a measure of the loop state. *)
Lemma for_each_adds {X S} (measure : S -> nat) (c : nat)
    (body : X -> S -> M pixels S) (l : list X) :
  (forall x s w s' w', body x s w = Ok (s', w') ->
                       measure s' = (measure s + c)%nat) ->
  forall s w s' w',
    for_each l body s w = Ok (s', w') ->
    measure s' = (measure s + c * length l)%nat.
Proof.
  intros Hbody. induction l as [|x l IH]; intros s w s' w' Hrun.
  - apply ret_ok in Hrun as [-> _]. cbn. lia.
  - cbn [for_each] in Hrun. apply bind_ok in Hrun as (s1 & w1 & Hx & Hrest).
    apply Hbody in Hx. apply IH in Hrest. cbn [length]. lia.
Qed.

Lemma process_prompts_collects opt model smp start_code sample_path wm_encoder
    prompts state state' (w w' : world) :
  process_prompts opt model smp start_code sample_path wm_encoder prompts state w
    = Ok (state', w') ->
  length state'.2
    = (length state.2 + (if opt_skip_grid opt then 0 else 1))%nat /\
  (opt_skip_save opt = true -> state'.1 = state.1 /\ w' = w).
Proof.
  intros Hrun. unfold process_prompts in Hrun. run_inv Hrun.
  apply check_safety_same_disk in Hstep0 as ->. cbn [fst snd]. split.
  - destruct (opt_skip_grid opt); cbn; [lia|]. rewrite length_app. cbn. lia.
  - intros Hskip. rewrite Hskip in Hstep1. cbn in Hstep1. now run_inv Hstep1.
Qed.

(** X14. With [skip_save], the saving loop saves nothing: the counter and the
    disk are as they were. *)
Theorem skip_save_saves_nothing opt model smp start_code wm_encoder data
    sample_path b0 b1 all_samples (w1 w2 : world) :
  opt_skip_save opt = true ->
  sampling_loop opt model smp start_code sample_path wm_encoder data b0 w1
    = Ok ((b1, all_samples), w2) ->
  b1 = b0 /\ w2 = w1.
Proof.
  intros Hskip Hloop. unfold sampling_loop in Hloop.
  apply (for_each_invariant (fun state w => state.1 = b0 /\ w = w1)) in Hloop;
    [exact Hloop| |now split].
  intros n state w state' w' _ Hinv.
  apply (for_each_invariant (fun state w => state.1 = b0 /\ w = w1)); [|exact Hinv].
  intros prompts s v s' v' _ [Hs ->] Hrun.
  apply process_prompts_collects in Hrun as [_ Hsame].
  destruct (Hsame Hskip) as [-> ->]. now split.
Qed.

(** X15. The saving loop collects one batch for every batch of prompts in
    every round, [n_iter] times the number of batches in all, unless
    [skip_grid] is set, when it collects none. *)
Theorem all_samples_count opt model smp start_code wm_encoder data
    sample_path b0 b1 all_samples (w1 w2 : world) :
  sampling_loop opt model smp start_code sample_path wm_encoder data b0 w1
    = Ok ((b1, all_samples), w2) ->
  length all_samples
    = if opt_skip_grid opt then 0%nat
      else (Z.to_nat (opt_n_iter opt) * length data)%nat.
Proof.
  intros Hloop. unfold sampling_loop in Hloop.
  apply (for_each_adds (fun state => length state.2)
           ((if opt_skip_grid opt then 0 else 1) * length data)) in Hloop.
  - cbn [snd length] in Hloop. rewrite length_seq in Hloop.
    destruct (opt_skip_grid opt); lia.
  - intros n state w state' w' Hround.
    apply (for_each_adds (fun state => length state.2)
             (if opt_skip_grid opt then 0 else 1)) in Hround; [exact Hround|].
    intros prompts s v s' v' Hrun.
    now apply process_prompts_collects in Hrun as [Hlen _].
Qed.

End SavingLoopMore.

(** ** Where the samples land on a POSIX file system *)

Section OriginalsFolder.
Context {pixels model_t tensor : Type} {libs : Libraries pixels model_t tensor}.
Local Abbreviation ndarray := (ndarray pixels).
Local Abbreviation world := (world pixels).

Lemma strip_prefix_app (a x y : string) :
  strip_prefix (a +:+ x) (a +:+ y) = strip_prefix x y.
Proof.
  induction a as [|c a IH]; [reflexivity|].
  change (strip_prefix (String c (a +:+ x)) (String c (a +:+ y)) = strip_prefix x y).
  cbn [strip_prefix]. now rewrite bool_decide_eq_true_2 by reflexivity.
Qed.

Lemma ends_with_slash_app (a b : string) :
  b <> "" -> ends_with_slash (a +:+ b) = ends_with_slash b.
Proof.
  intros Hb. induction a as [|c a IH]; [reflexivity|].
  change (ends_with_slash (String c (a +:+ b)) = ends_with_slash b).
  destruct (a +:+ b) as [|c' rest] eqn:Hab.
  - destruct a, b; try discriminate. congruence.
  - cbn [ends_with_slash]. exact IH.
Qed.

(** The sample folder is not the empty path and does not end in a
    slash, so a relative name is joined to it with one slash. *)
Lemma sample_path_join outpath b :
  String.prefix "/" b = false ->
  os_path_join (os_path_join outpath "samples") b
  = os_path_join outpath "samples" +:+ "/" +:+ b.
Proof.
  intros Hb. destruct (os_path_join_suffix outpath "samples") as [pre Hpre].
  unfold os_path_join at 1. rewrite Hb, Hpre.
  rewrite ends_with_slash_app by discriminate.
  rewrite bool_decide_eq_false_2; [reflexivity|].
  destruct pre; discriminate.
Qed.

(** A sample file is no entry of the folder [original]: the backslash in
    its name is no separator, and the file lies beside that folder. *)
Lemma sample_file_beside_original outpath n path :
  backslash_name (os_path_join outpath "samples") n path ->
  entry_name (os_path_join (os_path_join outpath "samples") "original") path = None.
Proof.
  intros (variant & Hvariant & ->).
  rewrite !sample_path_join by (reflexivity || now apply variant_name_relative).
  unfold entry_name. rewrite !string_app_assoc, strip_prefix_app.
  generalize (format_zero_padded 5 n +:+ ".png"). intros rest.
  unfold variants in Hvariant.
  repeat (apply elem_of_cons in Hvariant as [->|Hvariant]; [reflexivity|]).
  now apply elem_of_nil in Hvariant.
Qed.

Lemma omap_all_None {B} (f : string -> option B) (l : list string) :
  Forall (fun x => f x = None) l -> omap f l = [].
Proof. induction 1 as [|x l Hx _ IH]; [reflexivity|]. cbn. now rewrite Hx. Qed.

Lemma omap_elements_ignore {B} (f : string -> option B) (X K : gset string) :
  (forall k, k ∈ K -> f k = None) ->
  omap f (elements X) ≡ₚ omap f (elements (X ∖ K)).
Proof.
  intros HK.
  assert (X = (X ∖ K) ∪ (X ∩ K)) as HX.
  { apply set_eq. intros x. destruct (decide (x ∈ K)); set_solver. }
  assert (elements X ≡ₚ elements (X ∖ K) ++ elements (X ∩ K)) as Hperm.
  { rewrite <- elements_disj_union by set_solver. now rewrite <- HX. }
  assert (omap f (elements (X ∩ K)) = []) as Hnone.
  { apply omap_all_None, Forall_forall. intros k Hk. apply HK. set_solver. }
  now rewrite Hperm, omap_app, Hnone, app_nil_r.
Qed.

(** X16. On the POSIX file system the samples do not land in the folder
    [samples/original] that the counter is read from: after the saving
    loop that folder has as many entries as before, the number the
    counter started at, so the next run starts at the same counter. *)
Theorem originals_folder_unchanged opt model smp start_code wm_encoder data
    outpath sample_path b0 grid_count b1 all_samples (w0 w1 w2 : world) :
  output_counters outpath w0 = Ok ((sample_path, b0, grid_count), w1) ->
  sampling_loop opt model smp start_code sample_path wm_encoder data b0 w1
    = Ok ((b1, all_samples), w2) ->
  exists originals,
    os_listdir (os_path_join sample_path "original") w2 = Ok (originals, w2) /\
    Z.of_nat (length originals) = b0.
Proof.
  intros Hcounters Hloop.
  apply output_counters_ok in Hcounters as (-> & originals & Hlist & ->).
  apply (sampling_loop_invariant
           (saves_in_order (os_path_join outpath "samples") w1
              (Z.of_nat (length originals)))) in Hloop;
    [|intros; eapply save_sample_in_order; eassumption|apply saves_in_order_start].
  destruct Hloop as (new & _ & _ & _ & Hnames & Hdirs & Hfiles & _).
  unfold os_listdir in *. rewrite Hdirs.
  destruct (bool_decide _); [|destruct (bool_decide _); discriminate].
  injection Hlist as <-.
  eexists. split; [reflexivity|]. f_equal. apply Permutation_length.
  set (f := entry_name (os_path_join (os_path_join outpath "samples") "original")).
  set (K := list_to_set (new.*2) : gset string).
  assert (forall k, k ∈ K -> f k = None) as HK.
  { intros k Hk. apply elem_of_list_to_set, list_elem_of_fmap in Hk
      as (entry & -> & Hentry).
    rewrite Forall_forall in Hnames.
    destruct (Hnames entry Hentry) as (n & _ & Hname).
    now apply (sample_file_beside_original outpath n). }
  rewrite (omap_elements_ignore f _ K HK).
  rewrite (omap_elements_ignore f (dom (files w1) ∪ dirs w1) K HK).
  assert ((dom (files w2) ∪ dirs w1) ∖ K = (dom (files w1) ∪ dirs w1) ∖ K) as ->;
    [|reflexivity].
  apply set_eq. intros p. rewrite !elem_of_difference, !elem_of_union, !elem_of_dom.
  split; intros [Hp Hout]; (split; [|exact Hout]);
    rewrite Hfiles in * by (intros Hin; apply Hout; now apply elem_of_list_to_set);
    exact Hp.
Qed.

End OriginalsFolder.

(** ** The prompts, the folders and the grid *)

Section MainParts.
Context {pixels model_t tensor : Type} {libs : Libraries pixels model_t tensor}.
Local Abbreviation ndarray := (ndarray pixels).
Local Abbreviation world := (world pixels).




Lemma with_parents_self (name : string) : name <> "" -> name ∈ with_parents name.
Proof.
  induction name as [|c rest IH]; [congruence|]. intros _.
  cbn [with_parents]. destruct rest as [|c' rest'].
  - cbn. left.
  - assert (String c (String c' rest')
            ∈ String c <$> with_parents (String c' rest')) as Hin
      by (apply list_elem_of_fmap_2, IH; discriminate).
    rewrite bool_decide_eq_true_2 by discriminate.
    rewrite bool_decide_eq_false_2 by discriminate.
    cbn [andb]. destruct (String.prefix _ _); [right|]; exact Hin.
Qed.

Lemma os_makedirs_ok name (w w' : world) u :
  os_makedirs name w = Ok (u, w') ->
  files w' = files w /\ written w' = written w /\
  dirs w' = list_to_set (with_parents name) ∪ dirs w /\
  name ∈ dirs w'.
Proof.
  unfold os_makedirs. case_bool_decide as Hname; [discriminate|].
  repeat (case_bool_decide; [discriminate|]).
  intros [= _ <-]. cbn. repeat split.
  apply elem_of_union. left. apply elem_of_list_to_set. now apply with_parents_self.
Qed.

(** X18. When [output_counters] returns, the three sample folders exist next
    to every folder there was, no file was changed and nothing was
    written; the sample counter is not negative, and the grid counter is
    the number of entries of the output folder less one. *)
Theorem output_counters_folders outpath sample_path base_count grid_count
    (w0 w1 : world) :
  output_counters outpath w0 = Ok ((sample_path, base_count, grid_count), w1) ->
  files w1 = files w0 /\ written w1 = written w0 /\
  dirs w0 ⊆ dirs w1 /\
  (forall variant, variant ∈ variants ->
                   os_path_join sample_path variant ∈ dirs w1) /\
  0 <= base_count /\
  exists outputs,
    os_listdir outpath w1 = Ok (outputs, w1) /\
    grid_count = Z.of_nat (length outputs) - 1.
Proof.
  unfold output_counters. intros Hrun. run_inv Hrun.
  pose proof (os_listdir_same_disk _ _ _ _ Hstep3) as ->.
  pose proof (os_listdir_same_disk _ _ _ _ Hstep2) as ->.
  apply os_makedirs_ok in Hstep as (Hf1 & Hl1 & Hd1 & Ho).
  apply os_makedirs_ok in Hstep0 as (Hf2 & Hl2 & Hd2 & Hr).
  apply os_makedirs_ok in Hstep1 as (Hf3 & Hl3 & Hd3 & Hi).
  split; [congruence|]. split; [congruence|]. split; [set_solver|].
  split; [|split; [lia|]].
  - intros variant Hvariant. unfold variants in Hvariant.
    repeat (apply elem_of_cons in Hvariant as [->|Hvariant]; [set_solver|]).
    now apply elem_of_nil in Hvariant.
  - exists a3. split; [exact Hstep3|exact H].
Qed.

End MainParts.

(** ** [main] as a whole *)

Section WholeRun.
Context {pixels model_t tensor : Type} {libs : Libraries pixels model_t tensor}.
Local Abbreviation ndarray := (ndarray pixels).
Local Abbreviation world := (world pixels).



End WholeRun.

(** ** The further properties on the example libraries *)

Lemma chunk_size_below_one_witness :
  chunk [1; 2; 3] 0 = Ok [] /\ chunk [1; 2; 3] (-2) = Raise ValueError.
Proof.
  destruct (chunk_size_below_one [1; 2; 3]) as [Hzero Hneg].
  split; [exact Hzero|]. apply Hneg. lia.
Defined.

Lemma numpy_to_pil_items_witness :
  numpy_to_pil (libs := Example.libs) (ImageBatch [Example.image 2 2 7])
    = Ok [ {| pil_size := (2, 2); pil_mode := "RGB"; raster := 7 |} ] /\
  numpy_to_pil (libs := Example.libs)
    (ImageBatch [Example.image 2 2 7; MoreExamples.two_channels; Example.image 2 2 8])
    = Raise TypeError.
Proof.
  destruct (numpy_to_pil_items (libs := Example.libs) [Example.image 2 2 7])
    as (Hok & _ & _).
  destruct (numpy_to_pil_items (libs := Example.libs)
              [Example.image 2 2 7; MoreExamples.two_channels; Example.image 2 2 8])
    as (_ & _ & Hfail).
  split.
  - apply Hok. constructor; [reflexivity|constructor].
  - apply (Hfail [Example.image 2 2 7] MoreExamples.two_channels
             [Example.image 2 2 8]
             [ {| pil_size := (2, 2); pil_mode := "RGB"; raster := 7 |} ]).
    + reflexivity.
    + constructor; [reflexivity|constructor].
    + reflexivity.
Defined.

Lemma load_replacement_keeps_shape_witness :
  load_replacement (libs := Example.libs) (Example.image 2 2 (-1))
    Example.with_placeholder
    = Ok ({| shape := [2; 2; 3]; dtype := float32; buffer := 9 |},
          Example.with_placeholder) /\
  shape {| shape := [2; 2; 3]; dtype := float32; buffer := 9 |}
    = shape (Example.image 2 2 (-1)).
Proof.
  assert (load_replacement (libs := Example.libs) (Example.image 2 2 (-1))
            Example.with_placeholder
          = Ok ({| shape := [2; 2; 3]; dtype := float32; buffer := 9 |},
                Example.with_placeholder)) as Hrun by (vm_compute; reflexivity).
  split; [exact Hrun|].
  now destruct (load_replacement_keeps_shape _ _ _ _ Hrun) as (Hshape & _ & _).
Defined.

Lemma check_safety_returns_witness :
  exists out,
    check_safety (libs := Example.libs) true Example.flagged_batch Example.empty_world
      = Ok ((out, PyFlags [true; false]), Example.empty_world).
Proof.
  destruct (check_safety_returns (libs := Example.libs) Example.flagged_batch
              Example.empty_world
              [ {| pil_size := (2, 2); pil_mode := "RGB"; raster := -1 |};
                {| pil_size := (2, 2); pil_mode := "RGB"; raster := 7 |} ]
              tt Example.flagged_batch [true; false]
              ltac:(vm_compute; reflexivity) eq_refl eq_refl) as [Hreturns _].
  exact (Hreturns eq_refl).
Defined.

Lemma check_safety_keeps_shapes_witness :
  check_safety (libs := Example.libs) true Example.flagged_batch Example.with_placeholder
    = Ok ((Example.substituted_batch, PyFlags [true; false]),
          Example.with_placeholder) /\
  Forall2 (fun x y => shape y = shape x /\ dtype y = dtype x)
    Example.flagged_batch Example.substituted_batch.
Proof.
  assert (check_safety (libs := Example.libs) true Example.flagged_batch
            Example.with_placeholder
          = Ok ((Example.substituted_batch, PyFlags [true; false]),
                Example.with_placeholder)) as Hrun by (vm_compute; reflexivity).
  split; [exact Hrun|].
  apply (check_safety_keeps_shapes (libs := Example.libs) _ _ _ _ _
           [ {| pil_size := (2, 2); pil_mode := "RGB"; raster := -1 |};
             {| pil_size := (2, 2); pil_mode := "RGB"; raster := 7 |} ]
           tt Example.flagged_batch [true; false] Hrun
           ltac:(vm_compute; reflexivity) eq_refl eq_refl).
Defined.

Lemma resize_image_raises_witness :
  resize_image (libs := Example.libs) "missing.png" "b.png" 3 3 2 Example.one_picture
    = Raise cv2_error /\
  resize_image (libs := Example.libs) "a.png" "b.png" 3 3 0 Example.one_picture
    = Raise cv2_error.
Proof.
  split.
  - apply (resize_image_raises (libs := Example.libs)). left. intros s Hs.
    vm_compute in Hs. discriminate.
  - apply (resize_image_raises (libs := Example.libs)). right. left. lia.
Defined.


Lemma improve_image_source_and_frame_witness :
  improve_image (libs := Example.libs) "missing.png" "b.png" Example.one_picture
    = Raise cv2_error.
Proof.
  apply (improve_image_source_and_frame (libs := Example.libs)
           "missing.png" "b.png" Example.one_picture).
  intros s Hs. vm_compute in Hs. discriminate.
Defined.

Lemma sample_paths_distinct_witness :
  os_path_join "out" ("original" +:+ "\" +:+ format_zero_padded 5 3 +:+ ".png")
  <> os_path_join "out" ("resized" +:+ "\" +:+ format_zero_padded 5 3 +:+ ".png").
Proof.
  intros Heq.
  apply (sample_paths_distinct "out" "original" "resized" 3 3) in Heq
    as [Hvariant _]; [discriminate|repeat constructor..|lia|lia].
Defined.

Lemma saved_names_in_order_witness :
  0 <= 7 /\
  exists b1 all_samples w2 new,
    sampling_loop (libs := Example.libs) (default_options 1) tt (DDIMSampler tt) None
      "out" Example.encoder [["a"; "a"; "a"]] 7 Example.prepared
      = Ok ((b1, all_samples), w2) /\
    b1 = 11 /\
    written w2 = new ++ written Example.prepared /\
    saved_paths new = reverse (original_name "out" <$> seqZ 7 (b1 - 7)) /\
    NoDup (saved_paths new).
Proof.
  split; [lia|].
  eassert (sampling_loop (libs := Example.libs) (default_options 1) tt
             (DDIMSampler tt) None "out" Example.encoder [["a"; "a"; "a"]] 7
             Example.prepared
           = Ok ((_, _), _)) as Hloop by (vm_compute; reflexivity).
  destruct (saved_names_in_order _ _ _ _ _ _ _ _ _ _ _ _ Hloop ltac:(lia))
    as (new & Hlog & Hsaved & Hdistinct).
  eexists _, _, _, new. split; [exact Hloop|]. split; [reflexivity|].
  split; [exact Hlog|]. split; [exact Hsaved|exact Hdistinct].
Defined.

Lemma sampling_loop_frame_witness :
  exists b1 all_samples w2 new,
    sampling_loop (libs := Example.libs) (default_options 1) tt (DDIMSampler tt) None
      "out" Example.encoder [["a"; "a"; "a"]] 0 Example.prepared
      = Ok ((b1, all_samples), w2) /\
    written w2 = new ++ written Example.prepared /\
    dirs w2 = dirs Example.prepared.
Proof.
  eassert (sampling_loop (libs := Example.libs) (default_options 1) tt
             (DDIMSampler tt) None "out" Example.encoder [["a"; "a"; "a"]] 0
             Example.prepared
           = Ok ((_, _), _)) as Hloop by (vm_compute; reflexivity).
  destruct (sampling_loop_frame _ _ _ _ _ _ _ _ _ _ _ _ Hloop)
    as (new & Hlog & Hdirs & _).
  eexists _, _, _, new. split; [exact Hloop|]. split; [exact Hlog|exact Hdirs].
Defined.

Lemma skip_save_saves_nothing_witness :
  opt_skip_save (MoreExamples.options_of None 3 false true) = true /\
  exists b1 all_samples w2,
    sampling_loop (libs := Example.libs) (MoreExamples.options_of None 3 false true)
      tt (DDIMSampler tt) None "out" Example.encoder [["a"; "a"; "a"]] 7
      Example.prepared
    = Ok ((b1, all_samples), w2) /\
    b1 = 7 /\ w2 = Example.prepared.
Proof.
  split; [reflexivity|].
  eassert (sampling_loop (libs := Example.libs)
             (MoreExamples.options_of None 3 false true) tt (DDIMSampler tt) None
             "out" Example.encoder [["a"; "a"; "a"]] 7 Example.prepared
           = Ok ((_, _), _)) as Hloop by (vm_compute; reflexivity).
  eexists _, _, _. split; [exact Hloop|].
  exact (skip_save_saves_nothing (MoreExamples.options_of None 3 false true)
           _ _ _ _ _ _ _ _ _ _ _ eq_refl Hloop).
Defined.

Lemma all_samples_count_witness :
  exists b1 all_samples w2,
    sampling_loop (libs := Example.libs) (default_options 1) tt (DDIMSampler tt) None
      "out" Example.encoder [["a"; "a"; "a"]; ["b"; "b"; "b"]] 0 Example.prepared
      = Ok ((b1, all_samples), w2) /\
    length all_samples = 4%nat.
Proof.
  eassert (sampling_loop (libs := Example.libs) (default_options 1) tt
             (DDIMSampler tt) None "out" Example.encoder
             [["a"; "a"; "a"]; ["b"; "b"; "b"]] 0 Example.prepared
           = Ok ((_, _), _)) as Hloop by (vm_compute; reflexivity).
  pose proof (all_samples_count _ _ _ _ _ _ _ _ _ _ _ _ Hloop) as Hcount.
  eexists _, _, _. split; [exact Hloop|exact Hcount].
Defined.

Lemma originals_folder_unchanged_witness :
  exists b1 all_samples w2 originals,
    output_counters "out" Example.prepared
      = Ok (("out/samples", 0, 0), Example.counted) /\
    sampling_loop (libs := Example.libs) (default_options 1) tt (DDIMSampler tt) None
      "out/samples" Example.encoder [["a"; "a"; "a"]] 0 Example.counted
      = Ok ((b1, all_samples), w2) /\
    b1 = 4 /\
    os_listdir (os_path_join "out/samples" "original") w2 = Ok (originals, w2) /\
    Z.of_nat (length originals) = 0.
Proof.
  assert (output_counters "out" Example.prepared
          = Ok (("out/samples", 0, 0), Example.counted)) as Hcounters
    by (vm_compute; reflexivity).
  eassert (sampling_loop (libs := Example.libs) (default_options 1) tt
             (DDIMSampler tt) None "out/samples" Example.encoder
             [["a"; "a"; "a"]] 0 Example.counted
           = Ok ((_, _), _)) as Hloop by (vm_compute; reflexivity).
  destruct (originals_folder_unchanged _ _ _ _ _ _ _ _ _ _ _ _ _ _ _
              Hcounters Hloop) as (originals & Hlist & Hlength).
  eexists _, _, _, originals.
  split; [exact Hcounters|]. split; [exact Hloop|]. split; [reflexivity|].
  split; [exact Hlist|exact Hlength].
Defined.


Lemma output_counters_folders_witness :
  output_counters "out" Example.prepared
    = Ok (("out/samples", 0, 0), Example.counted) /\
  files Example.counted = files Example.prepared /\
  "out/samples/resized" ∈ dirs Example.counted.
Proof.
  assert (output_counters "out" Example.prepared
          = Ok (("out/samples", 0, 0), Example.counted)) as Hcounters
    by (vm_compute; reflexivity).
  destruct (output_counters_folders _ _ _ _ _ _ Hcounters)
    as (Hfiles & _ & _ & Hfolders & _).
  split; [exact Hcounters|]. split; [exact Hfiles|].
  apply (Hfolders "resized"). repeat constructor.
Defined.


(** ** A downsampling factor of zero *)

Section ZeroFactor.
Context {pixels model_t tensor : Type} {libs : Libraries pixels model_t tensor}.
Local Abbreviation world := (world pixels).

Lemma sample_images_zero_factor opt (model : model_t) smp start_code prompts :
  opt_f opt = 0 ->
  exists e, sample_images opt model smp start_code prompts = Raise e.
Proof.
  intros Hf. unfold sample_images, floor_div. rewrite Hf. cbn [Z.eqb].
  destruct (negb _).
  - destruct (get_learned_conditioning model (replicate _ _)) as [uc|e]; cbn;
      [|now exists e].
    destruct (get_learned_conditioning model prompts) as [c|e]; cbn;
      [now exists ZeroDivisionError|now exists e].
  - cbn. destruct (get_learned_conditioning model prompts) as [c|e]; cbn;
      [now exists ZeroDivisionError|now exists e].
Qed.

(** X20. With a downsampling factor [f] of zero, [H // f] raises
    [ZeroDivisionError]: the start code cannot be drawn, and the saving
    loop raises on its first batch of prompts, when there is a round to
    run and a batch to sample. *)
Theorem zero_factor_never_samples opt (model : model_t) smp start_code
    sample_path wm_encoder data base_count (w : world) :
  opt_f opt = 0 ->
  (opt_fixed_code opt = true -> start_code_of opt = Raise ZeroDivisionError) /\
  (0 < opt_n_iter opt -> data <> [] ->
     exists e,
       sampling_loop opt model smp start_code sample_path wm_encoder data
         base_count w = Raise e).
Proof.
  intros Hf. split.
  - intros Hfixed. unfold start_code_of, floor_div. now rewrite Hfixed, Hf.
  - intros Hrounds Hdata. unfold sampling_loop.
    destruct (Z.to_nat (opt_n_iter opt)) as [|rounds] eqn:Hn; [lia|].
    destruct data as [|prompts data]; [congruence|].
    cbn [seq for_each]. unfold bind at 1. unfold bind at 1.
    unfold process_prompts at 1. unfold bind at 1, lift at 1.
    destruct (sample_images_zero_factor opt model smp start_code prompts Hf)
      as [e ->].
    now exists e.
Qed.

End ZeroFactor.

Lemma zero_factor_never_samples_witness :
  opt_f (MoreExamples.zero_factor_options) = 0 /\
  start_code_of (libs := Example.libs) MoreExamples.zero_factor_options
    = Raise ZeroDivisionError /\
  sampling_loop (libs := Example.libs) MoreExamples.zero_factor_options tt
    (DDIMSampler tt) None "out" Example.encoder [["a"]] 0 Example.prepared
    = Raise ZeroDivisionError.
Proof.
  split; [reflexivity|].
  destruct (zero_factor_never_samples (libs := Example.libs)
              MoreExamples.zero_factor_options tt (DDIMSampler tt) None "out"
              Example.encoder [["a"]] 0 Example.prepared eq_refl)
    as [Hcode Hloop].
  split; [exact (Hcode eq_refl)|].
  destruct (Hloop ltac:(cbn; lia) ltac:(discriminate)) as [e He].
  rewrite He. f_equal.
  assert (sampling_loop (libs := Example.libs) MoreExamples.zero_factor_options tt
            (DDIMSampler tt) None "out" Example.encoder [["a"]] 0 Example.prepared
          = Raise ZeroDivisionError) as Hrun by (vm_compute; reflexivity).
  congruence.
Defined.
